(* ===== verification/_CoqProject ===== *)
-Q . S2P
Prelude.v
JsValue.v
Literal.v
JsParse.v
ImplementorTable.v
UnpinTable.v
UnpinSource.v
Loader.v
Script.v
Page.v
