(* ===== verification/Prelude.v ===== *)
(** * A verification development for [implementors/core/marker/trait.Unpin.js]

    ** The program

    The repository (the rustdoc output of the actix crates) has one source
    file, [src/implementors/core/marker/trait.Unpin.js].  It is a JavaScript
    fragment that rustdoc generates to list the implementors of the trait
    [core::marker::Unpin]:

    - line 1 opens an immediately invoked function expression and starts the
      object literal [var implementors = {];
    - lines 2 and 3 are the two properties of that literal, ["actix"] (48
      records) and ["actix_broker"] (3 records); each record is an array
      literal whose first element is the HTML markup of one [impl] block;
      32 records are triples [[html, 1, [path]]] and 19 are singletons
      [[html]];
    - line 4 closes the literal and dispatches it:
      [if (window.register_implementors)
         {window.register_implementors(implementors);}
       else {window.pending_implementors = implementors;}].

    The fragment interacts with one other component, the rustdoc page shell
    (its [main.js], not in the repository).  The shell installs the hook
    [window.register_implementors] and, when it initialises, takes a table
    that was left in [window.pending_implementors].  The shell is modelled
    from the spec (§3, §6).

    ** Files

    - [Prelude]: this header, the scope [unpin_scope], the hint databases
      [unpin] and [unpin_rw], and generic lemmas on lists, options and
      fuel.
    - [JsValue]: the part of the JavaScript semantics the fragment uses:
      values, ToBoolean ([truthy]), and a heap of objects, arrays and
      function objects with an allocation pointer.  The object property
      update ([props_define]) is CreateDataProperty.
    - [Literal]: the syntax of the literals in lines 1 to 4 ([lit]).  Their
      evaluation ([eval_lit]) allocates the container before its elements,
      as ArrayLiteral and ObjectLiteral do, and defines the properties one
      at a time.  [read_lit] reads a value back from the heap, with fuel.
    - [JsParse]: how the engine reads the text of the literal: a lexer for
      string and numeric literals and white space, and a recursive-descent
      parser [parse_value] with fuel.
    - [ImplementorTable]: the typed view the shell gives the table
      (records with markup, flag and path), its decoder, and the checks on
      the markup.
    - [UnpinTable]: the literal of lines 1 to 3, transcribed string by
      string, and the facts of the concrete table.
    - [UnpinSource]: the four lines of the file as text, and
      [parse_program], which reads the script around the literal.  It ties
      the text of the file to [implementors_lit] and to line 4's
      statement.
    - [Loader]: the global state of the page ([window] properties, heap and
      a log of host calls), the call semantics, [iife_body], the body of
      the IIFE for any initialiser, and [unpin_fragment], the body with the
      table.
    - [Script]: [exec_script], the script run from its text: the parser of
      [UnpinSource] followed by [iife_body].
    - [Page]: the shell modelled from the spec, and the page as a sequence
      of events in either order.

    ** What is proved

    The claims, in order of importance:
    - [Loader] (line 4), for every host behaviour:
      C1 [unpin_fragment_calls_hook]: a callable hook is called exactly
      once, with the fresh table as its only argument, before any change
      to [window], and its outcome is the fragment's;
      C2 [unpin_fragment_pending]: with a falsy hook the pending slot holds
      a fresh table that reads back as the literal, and nothing is called;
      C3 [unpin_fragment_type_error]: a truthy hook that is not a function
      raises a TypeError and the table is neither stored nor passed;
      C4 [unpin_fragment_refines]: the fragment refines the abstract
      invoke-or-store contract [spec_step] through the abstraction [abs];
      C7 [unpin_fragment_twice]: a second run overwrites the slot with a
      second, distinct table, and the first stays intact in the heap.
    - [Page]: C5 [page_either_order]: whichever of the fragment and the
      shell runs first, the table is rendered exactly once and nothing is
      left pending; C6 [page_reachable_inv]: the page invariant holds in
      every reachable state (rule induction on [reachable]).
    - [Script]: C8 [exec_script_stores] and C9 [exec_script_invokes]:
      every script of the file's shape, run from its text, stores, or
      passes to the hook, a value that reads back as the literal its text
      holds.
    The lemmas that carry them: the round trip of [eval_lit] and
    [read_lit] and the growth of the heap ([Literal]), the heap and window
    lemmas of [JsValue] and [Loader], and the unfolding of [iife_body].
    Three lemmas tie the model to the file's text and data, and back the
    findings: [UnpinSource.source_parses] (the four lines parse, inside
    the script line 4 closes, to [implementors_lit]),
    [UnpinTable.implementors_explicit_count] and
    [UnpinTable.implementors_paths].
    Every claim with a hypothesis has a witness in its file that applies
    it at a concrete page, literal or text: the fresh page [init_page], the
    page [hooked_page] whose hook is a function object, and [bogus_page]
    whose hook is a string, with a local recorder [HostFunctions] instance
    (the recorder function of spec §8).

    ** Modelling choices

    - JavaScript numbers are kept as [Z].  The fragment holds only the
      integer literal [1] and does no arithmetic, and NaN does not occur.
    - Property keys keep insertion order.  Integer-like keys, which
      JavaScript orders first, do not occur in the fragment.
    - The function object of the IIFE is not allocated.  It is unreachable
      once the call returns, and allocating it would only shift the
      locations the theorems name.
    - Fuel: [read_lit] takes fuel for the nesting depth of the value.  The
      table has depth 4 and every theorem holds for any fuel at least the
      depth.
    - Host functions (the hook and what it does) are a typeclass
      [HostFunctions].  The fragment's theorems hold for every instance;
      [Page] gives the shell's instance.
    - Fuel: [parse_value] takes one unit of fuel per call.  Every call
      consumes a character first, so fuel one more than the length of the
      text is enough; [parse_program] gives exactly that.

    ** Not modelled

    - The page shell ([main.js]) is not in the repository.  It is modelled
      from the spec only as far as the handshake goes: installing the hook,
      taking and clearing the pending slot, and rendering as appending the
      table to a list.  The HTML rendering of the markup is not modelled.
    - rustdoc itself, which generates the file, is out of scope (spec §1).
      The markup strings are opaque data; only the anchor text and the path
      of each record are read ([ImplementorTable.Markup]).
    - The parts of the JavaScript grammar the file does not use are
      rejected by the parser rather than modelled (see [JsParse]).  An
      object key named [__proto__], which sets the prototype instead of
      defining a property, does not occur and is not modelled. *)

From Stdlib Require Import String ZArith.
From stdpp Require Import base list option gmap strings.

Declare Scope unpin_scope.
Delimit Scope unpin_scope with unpin.

Create HintDb unpin.
Create Rewrite HintDb unpin_rw.

(** ** Generic lemmas on lists and options *)

Section ListLemmas.
Context {A B : Type}.

(** [mapM] over an append. *)
Lemma mapM_app (f : A → option B) (l1 l2 : list A) (k1 k2 : list B) :
  mapM f l1 = Some k1 → mapM f l2 = Some k2 → mapM f (l1 ++ l2) = Some (k1 ++ k2).
Proof.
  rewrite !mapM_Some. intros. by apply Forall2_app.
Qed.

End ListLemmas.

(** The elements of a list bounded by its [list_max]. *)
Lemma list_max_ge (l : list nat) (n : nat) : n ∈ l → n ≤ list_max l.
Proof.
  intros Hin. pose proof (list_max_le l (list_max l)) as [H _].
  specialize (H (le_n _)). rewrite Forall_forall in H. by apply H.
Qed.

#[export] Hint Resolve list_max_ge : unpin.

(** [mapM] under a weaker function: what succeeds with [f] succeeds with
    [g] whenever [g] extends [f] on the elements. *)
Lemma mapM_impl {A B} (f g : A → option B) (l : list A) (k : list B) :
  mapM f l = Some k → (∀ x y, x ∈ l → f x = Some y → g x = Some y) → mapM g l = Some k.
Proof.
  rewrite !mapM_Some. intros H. induction H as [|x y l k Hxy _ IH]; intros Hfg; constructor.
  - apply Hfg; [by left | done].
  - apply IH. intros. apply Hfg; [by right | done].
Qed.

(** [mapM] is [Some] of a [map] when each element succeeds. *)
Lemma mapM_map_Some {A B} (f : A → option B) (g : A → B) (l : list A) :
  (∀ x, x ∈ l → f x = Some (g x)) → mapM f l = Some (map g l).
Proof.
  intros H. apply mapM_Some. induction l as [|x l IH]; constructor.
  - apply H. by left.
  - apply IH. intros. apply H. by right.
Qed.

(** Pair a [Forall2] with a [Forall] on its left list. *)
Lemma Forall2_Forall_l_and {A B} (P : A → B → Prop) (Q : A → Prop) xs ys :
  Forall2 P xs ys → Forall Q xs → Forall2 (λ x y, P x y ∧ Q x) xs ys.
Proof. induction 1; inversion 1; subst; constructor; auto. Qed.

(** [mapM] over the right list of a [Forall2] that computes a [map]. *)
Lemma mapM_Forall2_map {A B C} (f : B → option C) (g : A → C) xs ys :
  Forall2 (λ x y, f y = Some (g x)) xs ys → mapM f ys = Some (map g xs).
Proof. intros H. apply mapM_Some. induction H; constructor; auto. Qed.

(** Each element is bounded by the [list_max] of the images. *)
Lemma Forall_le_list_max {X} (f : X → nat) (xs : list X) :
  Forall (λ x, f x ≤ list_max (map f xs)) xs.
Proof.
  apply Forall_forall. intros x Hx. apply list_max_ge.
  apply list_elem_of_In, in_map, list_elem_of_In, Hx.
Qed.

(** [forallb] as a [Forall] of boolean equations. *)
Lemma forallb_Forall_eq {A} (f : A → bool) (l : list A) :
  forallb f l = true ↔ Forall (λ x, f x = true) l.
Proof.
  induction l as [|x l IH]; simpl; [split; by constructor|].
  rewrite andb_true_iff, Forall_cons, IH. done.
Qed.

(** [mapM] only depends on the function's values on the list. *)
Lemma mapM_ext_in {A B} (f g : A → option B) (l : list A) :
  (∀ x, x ∈ l → f x = g x) → mapM f l = mapM g l.
Proof.
  induction l as [|x l IH]; intros Hfg; simpl; [done|].
  rewrite (Hfg x) by set_solver. rewrite IH by set_solver. done.
Qed.

