(* ===== verification/JsValue.v ===== *)
(** * JavaScript values and the heap

    The part of the JavaScript semantics that [trait.Unpin.js] exercises:
    the values it builds and tests ([val]), ToBoolean ([truthy], the test
    of [if (window.register_implementors)]), and a heap of the objects,
    arrays and function objects it allocates or calls ([heap], [alloc],
    [store]).  Objects keep their properties in insertion order, and
    [props_define] is CreateDataProperty on an ordinary object: an existing
    key keeps its position and takes the new value, a new key is appended.

    Lemmas: allocation returns a location that was free and keeps the
    heap well formed; [props_define] and [props_get] agree. *)

From Stdlib Require Import String ZArith.
From stdpp Require Import base list option gmap strings.
From S2P Require Import Prelude.

(** ** Values *)

(** Heap locations.  The allocator hands them out in increasing order. *)
Definition loc := positive.

(** The values of the fragment: primitives and references to heap cells.
    Numbers are integers (see the header of [Prelude]). *)
Inductive val :=
  | VUndefined
  | VNull
  | VBool (b : bool)
  | VNum (n : Z)
  | VStr (s : string)
  | VRef (l : loc).

#[export] Instance val_eq_dec : EqDecision val.
Proof. solve_decision. Defined.

(** ToBoolean (ECMA-262, 7.1.2): [undefined], [null], [false], [0] and the
    empty string are falsy, every object is truthy. *)
Definition truthy (v : val) : bool :=
  match v with
  | VUndefined | VNull => false
  | VBool b => b
  | VNum n => negb (Z.eqb n 0)
  | VStr s => negb (String.eqb s "")
  | VRef _ => true
  end.

(** ** Objects and arrays *)

(** CreateDataProperty on an ordinary extensible object whose properties
    are writable data properties: redefine in place, or append. *)
Fixpoint props_define {A} (ps : list (string * A)) (k : string) (v : A)
    : list (string * A) :=
  match ps with
  | [] => [(k, v)]
  | (k', v') :: ps' =>
      if String.eqb k k' then (k, v) :: ps' else (k', v') :: props_define ps' k v
  end.

(** [[Get]] of an own data property. *)
Fixpoint props_get {A} (ps : list (string * A)) (k : string) : option A :=
  match ps with
  | [] => None
  | (k', v') :: ps' => if String.eqb k k' then Some v' else props_get ps' k
  end.

(** A heap cell: an ordinary object, an array (its elements in index
    order), or a function object whose behaviour is the host's [fid]. *)
Inductive cell :=
  | CObj (props : list (string * val))
  | CArr (elems : list val)
  | CFun (fid : nat).

#[export] Instance cell_eq_dec : EqDecision cell.
Proof. solve_decision. Defined.

(** ** The heap *)

(** The cells and the next free location. *)
Record heap := mk_heap { next : loc; cells : gmap loc cell }.

(** Every allocated location is below the allocation pointer. *)
Definition heap_wf (h : heap) : Prop :=
  ∀ l c, cells h !! l = Some c → (l < next h)%positive.

Definition load (l : loc) (h : heap) : option cell := cells h !! l.

(** Allocate a cell at the next free location. *)
Definition alloc (c : cell) (h : heap) : loc * heap :=
  (next h, mk_heap (Pos.succ (next h)) (<[next h := c]> (cells h))).

(** Overwrite a cell. *)
Definition store (l : loc) (c : cell) (h : heap) : heap :=
  mk_heap (next h) (<[l := c]> (cells h)).

(** [array.push(v)] as ArrayAccumulation does it: the element is defined
    at index [length]. *)
Definition array_push (l : loc) (v : val) (h : heap) : heap :=
  match load l h with
  | Some (CArr vs) => store l (CArr (vs ++ [v])) h
  | _ => h
  end.

(** CreateDataPropertyOrThrow on the object at [l]. *)
Definition object_define (l : loc) (k : string) (v : val) (h : heap) : heap :=
  match load l h with
  | Some (CObj ps) => store l (CObj (props_define ps k v)) h
  | _ => h
  end.

(** IsCallable. *)
Definition callable (h : heap) (v : val) : option nat :=
  match v with
  | VRef l => match load l h with Some (CFun fid) => Some fid | _ => None end
  | _ => None
  end.

(** ** Lemmas *)

Lemma alloc_fresh (c : cell) (h : heap) :
  heap_wf h → cells h !! next h = None.
Proof.
  intros Hwf. destruct (cells h !! next h) as [c'|] eqn:E; [|done].
  apply Hwf in E. lia.
Qed.

(** Allocation takes a free location, keeps the heap well formed, and
    leaves every other cell as it was. *)
Lemma alloc_spec (c : cell) (h : heap) (l : loc) (h' : heap) :
  heap_wf h → alloc c h = (l, h') →
  cells h !! l = None ∧ load l h' = Some c ∧ heap_wf h' ∧
  next h' = Pos.succ (next h) ∧ l = next h ∧
  (∀ l', l' ≠ l → load l' h' = load l' h).
Proof.
  intros Hwf [= <- <-]. unfold load; simpl.
  split_and!; [by apply alloc_fresh| by rewrite lookup_insert_eq | | done | done |].
  - intros l' c'. simpl. rewrite lookup_insert.
    case_decide; [subst; lia|]. intros Hl. apply Hwf in Hl. lia.
  - intros l' Hne. by rewrite lookup_insert_ne.
Qed.

(** What allocation does, for any heap. *)
Lemma alloc_eq (c : cell) (h : heap) (l : loc) (h' : heap) :
  alloc c h = (l, h') →
  l = next h ∧ next h' = Pos.succ (next h) ∧ load l h' = Some c ∧
  (∀ l', l' ≠ l → load l' h' = load l' h).
Proof.
  intros [= <- <-]. unfold load; simpl. split_and!; [done | done | by rewrite lookup_insert_eq |].
  intros l' Hne. by rewrite lookup_insert_ne.
Qed.

Lemma store_next (l : loc) (c : cell) (h : heap) : next (store l c h) = next h.
Proof. done. Qed.

Lemma load_store (l l' : loc) (c : cell) (h : heap) :
  load l' (store l c h) = if decide (l = l') then Some c else load l' h.
Proof. unfold load, store; simpl. by rewrite lookup_insert. Qed.

Lemma store_wf (l : loc) (c : cell) (h : heap) :
  (l < next h)%positive → heap_wf h → heap_wf (store l c h).
Proof.
  intros Hl Hwf l' c'. simpl. rewrite lookup_insert. case_decide; [by subst|].
  apply Hwf.
Qed.

Lemma array_push_next (l : loc) (v : val) (h : heap) : next (array_push l v h) = next h.
Proof. unfold array_push. by destruct (load l h) as [[]|]. Qed.

Lemma object_define_next (l : loc) (k : string) (v : val) (h : heap) :
  next (object_define l k v h) = next h.
Proof. unfold object_define. by destruct (load l h) as [[]|]. Qed.

(** The write of [array_push] and [object_define] touches only [l]. *)
Lemma array_push_other (l l' : loc) (v : val) (h : heap) :
  l' ≠ l → load l' (array_push l v h) = load l' h.
Proof.
  intros Hne. unfold array_push. destruct (load l h) as [[]|]; try done.
  rewrite load_store. by case_decide.
Qed.

Lemma object_define_other (l l' : loc) (k : string) (v : val) (h : heap) :
  l' ≠ l → load l' (object_define l k v h) = load l' h.
Proof.
  intros Hne. unfold object_define. destruct (load l h) as [[]|]; try done.
  rewrite load_store. by case_decide.
Qed.

Lemma array_push_load (l : loc) (v : val) (vs : list val) (h : heap) :
  load l h = Some (CArr vs) → load l (array_push l v h) = Some (CArr (vs ++ [v])).
Proof. intros E. unfold array_push. rewrite E, load_store. by case_decide. Qed.

Lemma object_define_load (l : loc) (k : string) (v : val) ps (h : heap) :
  load l h = Some (CObj ps) → load l (object_define l k v h) = Some (CObj (props_define ps k v)).
Proof. intros E. unfold object_define. rewrite E, load_store. by case_decide. Qed.

#[export] Hint Rewrite array_push_next object_define_next store_next : unpin_rw.

(** ** Properties of [props_define] *)

Section Props.
Context {A : Type}.

Lemma props_get_define (ps : list (string * A)) (k k' : string) (v : A) :
  props_get (props_define ps k v) k' =
    if String.eqb k' k then Some v else props_get ps k'.
Proof.
  induction ps as [|[k0 v0] ps IH]; simpl.
  - by destruct (String.eqb k' k).
  - destruct (String.eqb_spec k k0) as [->|Hne]; simpl.
    + by destruct (String.eqb k' k0).
    + rewrite IH. destruct (String.eqb_spec k' k0), (String.eqb_spec k' k); congruence.
Qed.

(** The keys after a definition: unchanged if [k] was present, [k]
    appended otherwise. *)
Lemma props_define_keys (ps : list (string * A)) (k : string) (v : A) :
  (props_define ps k v).*1 = if decide (k ∈ ps.*1) then ps.*1 else ps.*1 ++ [k].
Proof.
  induction ps as [|[k0 v0] ps IH]; cbn [props_define]; [done|].
  destruct (String.eqb_spec k k0) as [->|Hne]; rewrite !fmap_cons; simpl.
  - rewrite decide_True; [done | by left].
  - rewrite IH. repeat case_decide; set_solver.
Qed.

(** With a fresh key the definition is an append. *)
Lemma props_define_fresh (ps : list (string * A)) (k : string) (v : A) :
  k ∉ ps.*1 → props_define ps k v = ps ++ [(k, v)].
Proof.
  induction ps as [|[k0 v0] ps IH]; simpl; [done|].
  intros Hk. simpl in Hk. rewrite elem_of_cons in Hk.
  destruct (String.eqb_spec k k0) as [->|Hne]; [naive_solver|].
  rewrite IH; naive_solver.
Qed.

End Props.

(** ** Closed heaps *)

(** A value refers below the pointer [n]. *)
Definition val_below (n : loc) (v : val) : Prop :=
  match v with VRef l => (l < n)%positive | _ => True end.

(** The values a cell holds. *)
Definition cell_vals (c : cell) : list val :=
  match c with CObj ps => ps.*2 | CArr vs => vs | CFun _ => [] end.

(** Every allocated cell is below the pointer, and so is every reference it
    holds: reading from an allocated cell never leaves the allocated
    part. *)
Definition heap_ok (h : heap) : Prop :=
  ∀ l c, load l h = Some c →
    (l < next h)%positive ∧ Forall (val_below (next h)) (cell_vals c).

Lemma val_below_mono (n m : loc) (v : val) :
  (n ≤ m)%positive → val_below n v → val_below m v.
Proof. destruct v; simpl; lia. Qed.

Lemma Forall_val_below_mono (n m : loc) (vs : list val) :
  (n ≤ m)%positive → Forall (val_below n) vs → Forall (val_below m) vs.
Proof. intros Hle H. eapply Forall_impl; [exact H|]. intros v. by apply val_below_mono. Qed.

#[export] Hint Resolve val_below_mono Forall_val_below_mono : unpin.

Lemma alloc_ok (c : cell) (h : heap) (l : loc) (h' : heap) :
  heap_ok h → Forall (val_below (next h)) (cell_vals c) → alloc c h = (l, h') → heap_ok h'.
Proof.
  intros Hok Hc Ea. destruct (alloc_eq c h l h' Ea) as (-> & Hn & Hl & Ho).
  intros l' c'. rewrite Hn. destruct (decide (l' = next h)) as [->|Hne].
  - rewrite Hl. intros [= <-]. split; [lia|]. eapply Forall_val_below_mono; [|done]. lia.
  - rewrite Ho by done. intros Hl'. destruct (Hok _ _ Hl') as [Hlt Hvs].
    split; [lia|]. eapply Forall_val_below_mono; [|done]. lia.
Qed.

Lemma store_ok (l : loc) (c : cell) (h : heap) :
  heap_ok h → (l < next h)%positive → Forall (val_below (next h)) (cell_vals c) →
  heap_ok (store l c h).
Proof.
  intros Hok Hl Hc l' c'. rewrite load_store, store_next. case_decide; [intros [= <-]; subst; done|].
  apply Hok.
Qed.

Lemma props_define_vals {A} (P : A → Prop) (ps : list (string * A)) (k : string) (v : A) :
  Forall P ps.*2 → P v → Forall P (props_define ps k v).*2.
Proof.
  induction ps as [|[k0 v0] ps IH]; simpl; intros Hps Hv; [by repeat constructor|].
  inversion Hps; subst. destruct (String.eqb k k0); simpl; constructor; auto.
Qed.

Lemma array_push_ok (l : loc) (v : val) (h : heap) :
  heap_ok h → (l < next h)%positive → val_below (next h) v → heap_ok (array_push l v h).
Proof.
  intros Hok Hl Hv. unfold array_push. destruct (load l h) as [[| vs |]|] eqn:E; try done.
  apply store_ok; [done..|]. simpl. apply Forall_app. split; [|by constructor].
  by apply (Hok l (CArr vs)).
Qed.

Lemma object_define_ok (l : loc) (k : string) (v : val) (h : heap) :
  heap_ok h → (l < next h)%positive → val_below (next h) v → heap_ok (object_define l k v h).
Proof.
  intros Hok Hl Hv. unfold object_define. destruct (load l h) as [[ps| |]|] eqn:E; try done.
  apply store_ok; [done..|]. simpl. apply props_define_vals; [|done].
  by apply (Hok l (CObj ps)).
Qed.
