(* ===== verification/Literal.v ===== *)
(** * Object and array literals

    Lines 1 to 3 of [trait.Unpin.js] are one object literal whose values are
    array literals of string, number and array literals.  [lit] is that
    syntax.  [eval_lit] evaluates it the way ECMA-262 does (13.2.4
    ArrayLiteral, 13.2.5 ObjectLiteral).  The container is allocated first
    (ArrayCreate, OrdinaryObjectCreate).  Then each element or property
    value is evaluated from left to right and stored at once (ArrayAccumulation,
    CreateDataPropertyOrThrow).  A duplicate key therefore keeps its first
    position and takes its last value.

    [read_lit] reads a value back from the heap as a literal, with fuel for
    the nesting depth.  [lit_norm] applies JavaScript's duplicate-key rule to
    a literal.

    Lemmas, used by the theorems of [Loader] and [Script]: evaluation only
    allocates (every older cell is unchanged, [eval_lit_ok]); the value read
    back from the result of [eval_lit] is [lit_norm] of the
    literal for any fuel at least [lit_depth]; for literals without
    duplicate keys [lit_norm] is the identity, so such a literal reads
    back as itself; evaluation keeps a closed heap closed. *)

From Stdlib Require Import String ZArith.
From stdpp Require Import base list option gmap strings.
From S2P Require Import Prelude JsValue.

(** ** Syntax *)

Inductive lit :=
  | LStr (s : string)
  | LNum (n : Z)
  | LArr (es : list lit)
  | LObj (ps : list (string * lit)).

(** Induction with a hypothesis for every element of an array or object
    literal. *)
Section LitInd.
Variable P : lit → Prop.
Hypothesis HStr : ∀ s, P (LStr s).
Hypothesis HNum : ∀ n, P (LNum n).
Hypothesis HArr : ∀ es, Forall P es → P (LArr es).
Hypothesis HObj : ∀ ps, Forall (λ kv, P kv.2) ps → P (LObj ps).

Fixpoint lit_ind' (e : lit) : P e :=
  match e with
  | LStr s => HStr s
  | LNum n => HNum n
  | LArr es =>
      HArr es ((fix go (es : list lit) : Forall P es :=
                  match es with
                  | [] => Forall_nil_2 _
                  | e :: es' => Forall_cons_2 _ _ _ (lit_ind' e) (go es')
                  end) es)
  | LObj ps =>
      HObj ps ((fix go (ps : list (string * lit)) : Forall (λ kv, P kv.2) ps :=
                  match ps with
                  | [] => Forall_nil_2 _
                  | (k, e) :: ps' => Forall_cons_2 _ (k, e) _ (lit_ind' e) (go ps')
                  end) ps)
  end.
End LitInd.

(** ** Evaluation *)

(** ArrayAccumulation: evaluate each element and push it on the array at
    [l]. *)
Fixpoint eval_elems (ev : lit → heap → val * heap) (l : loc)
    (es : list lit) (h : heap) : heap :=
  match es with
  | [] => h
  | e :: es' => let '(v, h') := ev e h in eval_elems ev l es' (array_push l v h')
  end.

(** PropertyDefinitionEvaluation: evaluate each value and define it on the
    object at [l]. *)
Fixpoint eval_props (ev : lit → heap → val * heap) (l : loc)
    (ps : list (string * lit)) (h : heap) : heap :=
  match ps with
  | [] => h
  | (k, e) :: ps' => let '(v, h') := ev e h in eval_props ev l ps' (object_define l k v h')
  end.

Fixpoint eval_lit (e : lit) (h : heap) {struct e} : val * heap :=
  match e with
  | LStr s => (VStr s, h)
  | LNum n => (VNum n, h)
  | LArr es =>
      let '(l, h1) := alloc (CArr []) h in (VRef l, eval_elems eval_lit l es h1)
  | LObj ps =>
      let '(l, h1) := alloc (CObj []) h in (VRef l, eval_props eval_lit l ps h1)
  end.

(** ** Reading a value back *)

Definition read_prop (rd : val → option lit) (kv : string * val) : option (string * lit) :=
  pair kv.1 <$> rd kv.2.

(** The literal a value denotes in a heap, following references for at
    most [n] levels. *)
Fixpoint read_lit (n : nat) (h : heap) (v : val) : option lit :=
  match v with
  | VStr s => Some (LStr s)
  | VNum z => Some (LNum z)
  | VRef l =>
      match n with
      | O => None
      | S m =>
          match load l h with
          | Some (CArr vs) => LArr <$> mapM (read_lit m h) vs
          | Some (CObj ps) => LObj <$> mapM (read_prop (read_lit m h)) ps
          | _ => None
          end
      end
  | _ => None
  end.

(** Nesting depth: the fuel [read_lit] needs. *)
Fixpoint lit_depth (e : lit) : nat :=
  match e with
  | LStr _ | LNum _ => 0
  | LArr es => S (list_max (map lit_depth es))
  | LObj ps => S (list_max (map (λ kv, lit_depth kv.2) ps))
  end.

(** The property list an object literal builds: CreateDataProperty from the
    empty object, in source order. *)
Definition props_build {A} (ps : list (string * A)) : list (string * A) :=
  foldl (λ acc kv, props_define acc kv.1 kv.2) [] ps.

(** The literal with JavaScript's rule for duplicate keys applied. *)
Fixpoint lit_norm (e : lit) : lit :=
  match e with
  | LArr es => LArr (map lit_norm es)
  | LObj ps => LObj (props_build (map (λ kv, (kv.1, lit_norm kv.2)) ps))
  | _ => e
  end.

(** No object literal, at any depth, repeats a key. *)
Fixpoint lit_nodup (e : lit) : bool :=
  match e with
  | LArr es => forallb lit_nodup es
  | LObj ps => bool_decide (NoDup ps.*1) && forallb (λ kv, lit_nodup kv.2) ps
  | _ => true
  end.

(** The empty heap. *)
Definition heap_empty : heap := mk_heap 1%positive ∅.

Example eval_small :
  let e := LObj [("a", LArr [LStr "x"; LNum 1]); ("a", LNum 2); ("b", LArr [])] in
  read_lit 2 (eval_lit e heap_empty).2 (eval_lit e heap_empty).1
  = Some (LObj [("a", LNum 2); ("b", LArr [])]).
Proof. reflexivity. Qed.

(** ** Evaluation only allocates *)

(** The cells below [lo] and [hi] agree. *)
Definition agree (g h : heap) (lo hi : loc) : Prop :=
  ∀ l, (lo ≤ l)%positive → (l < hi)%positive → load l g = load l h.

(** [h'] extends [h]: the pointer only grows and the cells below the old
    pointer are unchanged. *)
Definition extends (h h' : heap) : Prop :=
  (next h ≤ next h')%positive ∧ ∀ l, (l < next h)%positive → load l h' = load l h.

(** A value built from [h] into [h'] denotes [e]: read in any heap that
    agrees with [h'] on the cells allocated by the evaluation, with fuel
    [lit_depth e]. *)
Definition denotes (h h' : heap) (v : val) (e : lit) : Prop :=
  ∀ g, agree g h' (next h) (next h') → read_lit (lit_depth e) g v = Some (lit_norm e).

(** Both loops of [eval_lit] are one loop: evaluate a literal, then update
    the container at [l0] with [upd], which changes no other cell and not
    the pointer.  [cupd] says what it does to the container's cell. *)
Section Loop.
Context {X : Type} (proj : X → lit) (ev : lit → heap → val * heap).
Context (l0 : loc) (upd : X → val → heap → heap).
Context (cupd : X → val → option cell → option cell).
Hypothesis upd_next : ∀ x v h, next (upd x v h) = next h.
Hypothesis upd_other : ∀ x v h l, l ≠ l0 → load l (upd x v h) = load l h.
Hypothesis upd_l0 : ∀ x v h, load l0 (upd x v h) = cupd x v (load l0 h).

Fixpoint eval_loop (xs : list X) (h : heap) : heap :=
  match xs with
  | [] => h
  | x :: xs' => let '(v, h') := ev (proj x) h in eval_loop xs' (upd x v h')
  end.

Lemma eval_loop_extends (xs : list X) (h : heap) :
  Forall (λ x, ∀ h v h', ev (proj x) h = (v, h') → extends h h') xs →
  (next h ≤ next (eval_loop xs h))%positive ∧
  ∀ l, (l < next h)%positive → l ≠ l0 → load l (eval_loop xs h) = load l h.
Proof.
  intros Hxs. revert h. induction Hxs as [|x xs Hx _ IH]; intros h; simpl; [split; [lia | done]|].
  destruct (ev (proj x) h) as [v h1] eqn:E. apply Hx in E as [Hn Hl].
  destruct (IH (upd x v h1)) as [Hn' Hl']. rewrite upd_next in Hn', Hl'.
  split; [lia|]. intros l Hlt Hne. rewrite Hl', upd_other, Hl; auto; lia.
Qed.

(** Every element read back, and the container's cell. *)
Lemma eval_loop_denotes (xs : list X) (h : heap) :
  Forall (λ x, ∀ h v h', ev (proj x) h = (v, h') → extends h h' ∧ denotes h h' v (proj x)) xs →
  (l0 < next h)%positive →
  ∃ vs, Forall2 (λ x v, denotes h (eval_loop xs h) v (proj x)) xs vs ∧
        load l0 (eval_loop xs h) = foldl (λ c xv, cupd xv.1 xv.2 c) (load l0 h) (zip xs vs).
Proof.
  intros Hxs. revert h. induction Hxs as [|x xs Hx Hxs IH]; intros h Hl0; simpl.
  { by exists []. }
  destruct (ev (proj x) h) as [v h1] eqn:E. apply Hx in E as [[Hn Hl] Hd].
  destruct (IH (upd x v h1)) as (vs & Hvs & Hc); [rewrite upd_next; lia|].
  pose proof (eval_loop_extends xs (upd x v h1)) as [Hn' Hl'].
  { eapply Forall_impl; [done|]. naive_solver. }
  rewrite upd_next in Hn', Hl'. exists (v :: vs). split.
  - constructor.
    + intros g Hg. apply Hd. intros l Hlo Hhi. rewrite Hg by lia.
      rewrite Hl', upd_other; auto; lia.
    + eapply Forall2_impl; [done|]. intros x' v' Hd' g Hg.
      apply Hd'. intros l Hlo Hhi. rewrite upd_next in Hlo. apply Hg; lia.
  - rewrite Hc, upd_l0, Hl; [done|lia].
Qed.

(** The loop keeps the heap closed. *)
Lemma eval_loop_ok (xs : list X) (h : heap) :
  (∀ x v h, heap_ok h → (l0 < next h)%positive → val_below (next h) v → heap_ok (upd x v h)) →
  Forall (λ x, ∀ h v h', heap_ok h → ev (proj x) h = (v, h') →
            heap_ok h' ∧ val_below (next h') v ∧ (next h ≤ next h')%positive) xs →
  heap_ok h → (l0 < next h)%positive → heap_ok (eval_loop xs h).
Proof.
  intros Hupd Hxs. revert h. induction Hxs as [|x xs Hx _ IH]; intros h Hok Hl0; simpl; [done|].
  destruct (ev (proj x) h) as [v h1] eqn:E. destruct (Hx h v h1 Hok E) as (Hok1 & Hv & Hn).
  apply IH; rewrite ?upd_next; [apply Hupd; [done | lia | done] | lia].
Qed.
End Loop.

Lemma eval_elems_loop ev l es h :
  eval_elems ev l es h = eval_loop id ev (λ _, array_push l) es h.
Proof. revert h. induction es; intros h; simpl; [done|]. by destruct (ev _ h). Qed.

Lemma eval_props_loop ev l ps h :
  eval_props ev l ps h = eval_loop snd ev (λ kv, object_define l kv.1) ps h.
Proof.
  revert h. induction ps as [|[k e] ps IH]; intros h; simpl; [done|]. by destruct (ev _ h).
Qed.

(** ** Reading back *)

(** More fuel reads the same literal. *)
Lemma read_lit_mono (n m : nat) (g : heap) (v : val) (e : lit) :
  read_lit n g v = Some e → n ≤ m → read_lit m g v = Some e.
Proof.
  revert m v e. induction n as [|n IH]; intros m v e Hr Hle.
  { destruct v, m; simpl in *; congruence. }
  destruct m as [|m]; [lia|]. destruct v; simpl in *; try congruence.
  destruct (load l g) as [[ps|vs|]|]; try done.
  - destruct (mapM _ ps) as [qs|] eqn:E; simplify_eq/=.
    erewrite (mapM_impl _ _ ps qs); [done..|]. intros [k v] [k' e'] _.
    unfold read_prop; simpl. destruct (read_lit n g v) eqn:Ev; intros ?; simplify_eq/=.
    by erewrite IH by (done || lia).
  - destruct (mapM _ vs) as [qs|] eqn:E; simplify_eq/=.
    erewrite (mapM_impl _ _ vs qs); [done..|]. intros. apply (IH m); [done|lia].
Qed.

(** What pushing and defining do to the container's cell. *)
Definition cell_push (v : val) (oc : option cell) : option cell :=
  match oc with Some (CArr vs) => Some (CArr (vs ++ [v])) | _ => oc end.

Definition cell_define (k : string) (v : val) (oc : option cell) : option cell :=
  match oc with Some (CObj ps) => Some (CObj (props_define ps k v)) | _ => oc end.

Lemma array_push_cell (l : loc) (v : val) (h : heap) :
  load l (array_push l v h) = cell_push v (load l h).
Proof.
  unfold array_push, cell_push. destruct (load l h) as [[]|] eqn:E; rewrite ?E; try done.
  rewrite load_store. by case_decide.
Qed.

Lemma object_define_cell (l : loc) (k : string) (v : val) (h : heap) :
  load l (object_define l k v h) = cell_define k v (load l h).
Proof.
  unfold object_define, cell_define. destruct (load l h) as [[]|] eqn:E; rewrite ?E; try done.
  rewrite load_store. by case_decide.
Qed.

Lemma foldl_cell_push {X} (xs : list X) (vs acc : list val) :
  length xs = length vs →
  foldl (λ c xv, cell_push xv.2 c) (Some (CArr acc)) (zip xs vs) = Some (CArr (acc ++ vs)).
Proof.
  revert vs acc. induction xs as [|x xs IH]; intros [|v vs] acc Hlen; simplify_eq/=.
  - by rewrite app_nil_r.
  - rewrite IH by done. by rewrite <-app_assoc.
Qed.

(** Reading a property list commutes with [props_define]. *)
Lemma read_props_define (rd : val → option lit) acc acc' (k : string) (v : val) (e : lit) :
  mapM (read_prop rd) acc = Some acc' → rd v = Some e →
  mapM (read_prop rd) (props_define acc k v) = Some (props_define acc' k e).
Proof.
  rewrite !mapM_Some. intros H Hv. induction H as [|[k0 v0] q acc acc' Hq Hrest IH]; simpl.
  - constructor; [|constructor]. unfold read_prop; simpl. by rewrite Hv.
  - unfold read_prop in Hq; simpl in Hq. destruct (rd v0) as [e0|] eqn:E0; simplify_eq/=.
    destruct (String.eqb k k0); constructor; try done; unfold read_prop; simpl.
    + by rewrite Hv.
    + by rewrite E0.
Qed.

Lemma foldl_cell_define_read (rd : val → option lit) (ps : list (string * lit)) vs acc acc' :
  Forall2 (λ kv v, rd v = Some (lit_norm kv.2)) ps vs →
  mapM (read_prop rd) acc = Some acc' →
  ∃ qs, foldl (λ c xv, cell_define xv.1.1 xv.2 c) (Some (CObj acc)) (zip ps vs) = Some (CObj qs) ∧
        mapM (read_prop rd) qs =
          Some (foldl (λ a kv, props_define a kv.1 kv.2) acc' (map (λ kv, (kv.1, lit_norm kv.2)) ps)).
Proof.
  intros H. revert acc acc'. induction H as [|[k e] v ps vs Hv _ IH]; intros acc acc' Hacc; simpl.
  - by exists acc.
  - apply IH. by apply read_props_define.
Qed.

(** ** Evaluation builds the literal *)

(** The elements built by a loop read back with any common fuel. *)
Lemma denotes_elems {X} (proj : X → lit) (h1 h' g : heap) (xs : list X) vs (M : nat) :
  Forall2 (λ x v, denotes h1 h' v (proj x)) xs vs →
  Forall (λ x, lit_depth (proj x) ≤ M) xs →
  agree g h' (next h1) (next h') →
  Forall2 (λ x v, read_lit M g v = Some (lit_norm (proj x))) xs vs.
Proof.
  intros Hvs HM Hg. pose proof (Forall2_Forall_l_and _ _ _ _ Hvs HM) as H.
  eapply Forall2_impl; [exact H|]. intros x v [Hd Hle].
  eapply read_lit_mono; [by apply Hd | done].
Qed.

(** The container is the fresh cell [next h]; the loop keeps every older
    cell. *)
Lemma alloc_loop_extends {X} (proj : X → lit) (c : cell) upd (xs : list X) (h h1 : heap) l0 :
  alloc c h = (l0, h1) →
  (∀ x v h, next (upd x v h) = next h) →
  (∀ x v g l, l ≠ l0 → load l (upd x v g) = load l g) →
  Forall (λ x, ∀ h v h', eval_lit (proj x) h = (v, h') → extends h h') xs →
  extends h (eval_loop proj eval_lit upd xs h1) ∧
  (next h < next (eval_loop proj eval_lit upd xs h1))%positive.
Proof.
  intros Ea Hn Ho Hxs.
  destruct (eval_loop_extends proj eval_lit l0 upd Hn Ho xs h1 Hxs) as [H1 H2].
  destruct (alloc_eq c h l0 h1 Ea) as (-> & Hn1 & _ & Ho1).
  split; [split|]; [lia | | lia]. intros l Hl. rewrite H2, Ho1; [done | lia..].
Qed.

(** What the theorem below states of one literal. *)
Definition eval_ok (e : lit) : Prop :=
  ∀ h v h', eval_lit e h = (v, h') → extends h h' ∧ denotes h h' v e.

Lemma eval_ok_extends (xs : list lit) :
  Forall eval_ok xs → Forall (λ e, ∀ h v h', eval_lit e h = (v, h') → extends h h') xs.
Proof. intros H. eapply Forall_impl; [exact H|]. intros e He h v h' E. by apply (He h v h'). Qed.

Lemma eval_arr_ok (es : list lit) : Forall eval_ok es → eval_ok (LArr es).
Proof.
  intros Hes h v h' Heval. cbn [eval_lit] in Heval.
  destruct (alloc (CArr []) h) as [l0 h1] eqn:Ea. rewrite eval_elems_loop in Heval.
  injection Heval as <- <-.
  edestruct (alloc_loop_extends id (CArr []) (λ _, array_push l0) es h h1 l0) as [Hext Hlt];
    [done | intros; apply array_push_next | intros; by apply array_push_other
    | by apply eval_ok_extends |].
  split; [done|].
  destruct (alloc_eq _ _ _ _ Ea) as (-> & Hn1 & Hc1 & _). intros g Hg.
  destruct (eval_loop_denotes id eval_lit (next h) (λ _, array_push (next h)) (λ _, cell_push)
              (λ _ v g, array_push_next (next h) v g) (λ _ v g l, array_push_other (next h) l v g)
              (λ _ v g, array_push_cell (next h) v g) es h1 Hes) as (vs & Hvs & Hc); [lia|].
  rewrite Hc1, (foldl_cell_push es vs []) in Hc by (eapply Forall2_length; eauto).
  simpl. rewrite Hg, Hc by lia. simpl.
  erewrite mapM_Forall2_map; [done|]. eapply (denotes_elems id); [done | apply Forall_le_list_max |].
  intros l Hlo Hhi. apply Hg; simpl in *; lia.
Qed.

Lemma eval_obj_ok (ps : list (string * lit)) :
  Forall (λ kv, eval_ok kv.2) ps → eval_ok (LObj ps).
Proof.
  intros Hps h v h' Heval. cbn [eval_lit] in Heval.
  destruct (alloc (CObj []) h) as [l0 h1] eqn:Ea. rewrite eval_props_loop in Heval.
  injection Heval as <- <-.
  edestruct (alloc_loop_extends snd (CObj []) (λ kv, object_define l0 kv.1) ps h h1 l0)
    as [Hext Hlt];
    [done | intros; apply object_define_next | intros; by apply object_define_other
    | eapply Forall_impl; [exact Hps|]; intros kv Hkv h0 v0 h0' E; by apply (Hkv h0 v0 h0') |].
  split; [done|].
  destruct (alloc_eq _ _ _ _ Ea) as (-> & Hn1 & Hc1 & _). intros g Hg.
  destruct (eval_loop_denotes snd eval_lit (next h) (λ kv, object_define (next h) kv.1)
              (λ kv, cell_define kv.1)
              (λ kv v g, object_define_next (next h) kv.1 v g)
              (λ kv v g l, object_define_other (next h) l kv.1 v g)
              (λ kv v g, object_define_cell (next h) kv.1 v g) ps h1 Hps)
    as (vs & Hvs & Hc); [lia|].
  set (M := list_max (map (λ kv, lit_depth kv.2) ps)).
  assert (Hrd : Forall2 (λ kv v, read_lit M g v = Some (lit_norm kv.2)) ps vs).
  { eapply (denotes_elems snd); [done | apply Forall_le_list_max |].
    intros l Hlo Hhi. apply Hg; simpl in *; lia. }
  destruct (foldl_cell_define_read (read_lit M g) ps vs [] [] Hrd) as (qs & Hq & Hr); [done|].
  assert (Hc' : load (next h) (eval_loop snd eval_lit (λ kv, object_define (next h) kv.1) ps h1)
                = Some (CObj qs)) by (rewrite Hc, Hc1; exact Hq).
  simpl. rewrite Hg, Hc' by lia. simpl. fold M. by rewrite Hr.
Qed.

(** Evaluation of any literal only allocates, and its value denotes the
    literal. *)
Lemma eval_lit_ok (e : lit) : eval_ok e.
Proof.
  induction e as [s|n|es IH|ps IH] using lit_ind'.
  - intros h v h' [= <- <-]. split; [split; [lia | done] | by intros g _].
  - intros h v h' [= <- <-]. split; [split; [lia | done] | by intros g _].
  - by apply eval_arr_ok.
  - by apply eval_obj_ok.
Qed.

(** ** Duplicate keys *)

(** Without duplicate keys, the object built is the literal's own list. *)
Lemma foldl_define_nodup {A} (acc ps : list (string * A)) :
  NoDup (acc.*1 ++ ps.*1) →
  foldl (λ a kv, props_define a kv.1 kv.2) acc ps = acc ++ ps.
Proof.
  revert acc. induction ps as [|[k v] ps IH]; intros acc Hnd; simpl; [by rewrite app_nil_r|].
  rewrite props_define_fresh.
  - rewrite IH, <-app_assoc; [done|]. by rewrite fmap_app, <-app_assoc.
  - intros Hk. apply NoDup_app in Hnd as (_ & Hdis & _). apply (Hdis k); [done|]. by left.
Qed.

(** A literal that repeats no key is its own normal form: the object
    JavaScript builds has exactly the properties written, in order. *)
Lemma lit_norm_id (e : lit) : lit_nodup e = true → lit_norm e = e.
Proof.
  induction e as [s|n|es IH|ps IH] using lit_ind'; simpl; intros Hnd; try done.
  - f_equal. apply forallb_Forall_eq in Hnd. rewrite Forall_forall in Hnd. rewrite Forall_forall in IH.
    induction es as [|e es IHes]; simpl; [done|]. f_equal.
    + apply IH; [set_solver | apply Hnd; set_solver].
    + apply IHes; intros; [apply IH | apply Hnd]; set_solver.
  - apply andb_prop in Hnd as [Hnd Hall]. apply bool_decide_eq_true in Hnd.
    apply forallb_Forall_eq in Hall. rewrite Forall_forall in Hall. rewrite Forall_forall in IH.
    assert (Hm : map (λ kv, (kv.1, lit_norm kv.2)) ps = ps).
    { clear Hnd. induction ps as [|[k e] ps IHps]; simpl; [done|]. f_equal.
      + f_equal. apply (IH (k, e)); [set_solver | apply (Hall (k, e)); set_solver].
      + apply IHps; intros; [apply IH | apply Hall]; set_solver. }
    rewrite Hm. unfold props_build. by rewrite foldl_define_nodup.
Qed.

(** ** Evaluation keeps the heap closed *)

Definition eval_closed (e : lit) : Prop :=
  ∀ h v h', heap_ok h → eval_lit e h = (v, h') →
    heap_ok h' ∧ val_below (next h') v ∧ (next h ≤ next h')%positive.

Lemma eval_lit_closed (e : lit) : eval_closed e.
Proof.
  induction e as [s|n|es IH|ps IH] using lit_ind'; intros h v h' Hok Heval.
  1,2: injection Heval as <- <-; split_and!; simpl; auto; lia.
  - cbn [eval_lit] in Heval. destruct (alloc (CArr []) h) as [l0 h1] eqn:Ea.
    rewrite eval_elems_loop in Heval. injection Heval as <- <-.
    destruct (alloc_eq _ _ _ _ Ea) as (-> & Hn1 & _ & _).
    destruct (eval_loop_extends id eval_lit (next h) (λ _, array_push (next h))
                (λ _ v g, array_push_next _ v g) (λ _ v g l, array_push_other _ l v g) es h1)
      as [Hle _]; [by apply eval_ok_extends, Forall_forall; intros; apply eval_lit_ok|].
    split_and!; [| simpl; lia | lia].
    apply (eval_loop_ok id eval_lit (next h) (λ _, array_push (next h))
             (λ _ v g, array_push_next _ v g)); [intros; by apply array_push_ok | done | | lia].
    apply (alloc_ok (CArr []) h (next h) h1 Hok); [constructor | done].
  - cbn [eval_lit] in Heval. destruct (alloc (CObj []) h) as [l0 h1] eqn:Ea.
    rewrite eval_props_loop in Heval. injection Heval as <- <-.
    destruct (alloc_eq _ _ _ _ Ea) as (-> & Hn1 & _ & _).
    destruct (eval_loop_extends snd eval_lit (next h) (λ kv, object_define (next h) kv.1)
                (λ kv v g, object_define_next _ kv.1 v g)
                (λ kv v g l, object_define_other _ l kv.1 v g) ps h1)
      as [Hle _]; [apply Forall_forall; intros; by eapply eval_lit_ok|].
    split_and!; [| simpl; lia | lia].
    apply (eval_loop_ok snd eval_lit (next h) (λ kv, object_define (next h) kv.1)
             (λ kv v g, object_define_next _ kv.1 v g)); [intros; by apply object_define_ok | done | | lia].
    apply (alloc_ok (CObj []) h (next h) h1 Hok); [constructor | done].
Qed.

(** In a closed heap, a value below the pointer reads the same in every
    extension: later allocations cannot change an older table. *)
Lemma read_lit_extends (n : nat) (h h' : heap) (v : val) :
  heap_ok h → extends h h' → val_below (next h) v → read_lit n h' v = read_lit n h v.
Proof.
  intros Hok [_ Hext]. revert v. induction n as [|n IH]; intros v Hv; destruct v; simpl; try done.
  simpl in Hv. rewrite Hext by done. destruct (load l h) as [c|] eqn:E; [|done].
  destruct (Hok l c E) as [_ Hc]. rewrite Forall_forall in Hc.
  destruct c as [ps|vs|]; simpl in Hc; try done.
  - f_equal. apply mapM_ext_in. intros [k w] Hkw. unfold read_prop; simpl. rewrite IH; [done|].
    apply Hc. by apply (list_elem_of_fmap_2 snd ps (k, w)).
  - f_equal. apply mapM_ext_in. intros w Hw. by apply IH, Hc.
Qed.
