(* ===== verification/JsParse.v ===== *)
(** * Reading the source text: the literal syntax of lines 1 to 4

    The engine that runs [trait.Unpin.js] first parses its text.  This
    file models the part of the ECMAScript grammar the file uses: string
    literals with escapes (12.9.4), decimal integer literals (12.9.3),
    array literals (13.2.4), object literals with string keys (13.2.5),
    and white space and line terminators between tokens (12.2, 12.3).
    The text is a [list ascii]; the file is plain ASCII.

    - [lex_string] reads the characters of a string literal after its
      opening quote, with the single-character escapes; [lex_number] reads
      a decimal integer literal.
    - [parse_value] is a recursive-descent parser.  [parse_elems] and
      [parse_props] read the rest of an array or object literal after its
      first element.  The three functions share one fuel argument; each
      call consumes a character before it recurses with less fuel.  A
      trailing comma is accepted, as the grammar allows.

    Not modelled: elisions ([[1,,2]]), identifier and numeric keys, escapes
    [\x], [\u], octal escapes and line continuations, and numbers with a
    fraction, an exponent, a radix prefix or a BigInt suffix.  The parser
    rejects them with [PErr] rather than reading something else; none
    occurs in the source.  Numbers are read as unbounded integers; the file
    holds only the literal [1].

    This file holds definitions only: [UnpinSource.parse_program] uses the
    parser to read the file, and [Script] runs what it reads. *)

From Stdlib Require Import String Ascii ZArith.
From stdpp Require Import base list option strings.
From S2P Require Import Prelude JsValue Literal.

Local Open Scope char_scope.

(** ** Characters *)

Definition dquote : ascii := "034".
Definition bslash : ascii := "092".
Definition lf : ascii := "010".
Definition cr : ascii := "013".
Definition tab : ascii := "009".

Definition is_digit (c : ascii) : bool :=
  (48 <=? nat_of_ascii c)%nat && (nat_of_ascii c <=? 57)%nat.

(** The characters of an IdentifierPart, and the dot: none may follow a
    numeric literal that this model reads. *)
Definition is_ident_part (c : ascii) : bool :=
  let n := nat_of_ascii c in
  is_digit c || ((65 <=? n) && (n <=? 90))%nat || ((97 <=? n) && (n <=? 122))%nat
  || Ascii.eqb c "_" || Ascii.eqb c "$" || Ascii.eqb c ".".

(** WhiteSpace and LineTerminator of the ASCII range: tab, line feed,
    vertical tab, form feed, carriage return and space. *)
Definition is_ws (c : ascii) : bool :=
  let n := nat_of_ascii c in ((9 <=? n) && (n <=? 13))%nat || (n =? 32)%nat.

Fixpoint skip_ws (s : list ascii) : list ascii :=
  match s with
  | c :: s' => if is_ws c then skip_ws s' else s
  | [] => []
  end.

(** ** Tokens *)

(** SingleEscapeCharacter and NonEscapeCharacter: the character an escape
    stands for, or [None] for the escapes not modelled. *)
Definition escape_value (d : ascii) : option ascii :=
  if Ascii.eqb d "n" then Some lf
  else if Ascii.eqb d "t" then Some tab
  else if Ascii.eqb d "r" then Some cr
  else if Ascii.eqb d "b" then Some "008"
  else if Ascii.eqb d "f" then Some "012"
  else if Ascii.eqb d "v" then Some "011"
  else if is_digit d || Ascii.eqb d "x" || Ascii.eqb d "u" || Ascii.eqb d lf || Ascii.eqb d cr
  then None
  else Some d.

(** The body of a string literal, after its opening quote: its value and
    the text after the closing quote.  A line terminator may not occur. *)
Fixpoint lex_string (s : list ascii) : option (list ascii * list ascii) :=
  match s with
  | [] => None
  | c :: s' =>
      if Ascii.eqb c dquote then Some ([], s')
      else if Ascii.eqb c lf || Ascii.eqb c cr then None
      else if Ascii.eqb c bslash then
        match s' with
        | d :: s'' =>
            match escape_value d, lex_string s'' with
            | Some d', Some (cs, r) => Some (d' :: cs, r)
            | _, _ => None
            end
        | [] => None
        end
      else match lex_string s' with Some (cs, r) => Some (c :: cs, r) | None => None end
  end.

Definition digit_value (c : ascii) : Z := Z.of_nat (nat_of_ascii c - 48).

(** The digits that follow, accumulated in base 10. *)
Fixpoint lex_digits (acc : Z) (s : list ascii) : Z * list ascii :=
  match s with
  | c :: s' => if is_digit c then lex_digits (10 * acc + digit_value c) s' else (acc, s)
  | [] => (acc, [])
  end.

(** The result of the parser: a value and the rest of the text, a syntax
    error, or fuel exhausted. *)
Inductive presult (A : Type) :=
  | POk (a : A) (rest : list ascii)
  | PErr
  | PFuel.
Arguments POk {A}. Arguments PErr {A}. Arguments PFuel {A}.

(** Sequencing: continue with the value and the rest of a sub-parse, and
    pass an error or exhausted fuel on. *)
Notation "'let+' ( a , r ) := m 'in' k" :=
  (match m with POk a r => k | PErr => PErr | PFuel => PFuel end)
  (at level 99, a name, r name, m at level 98, k at level 99) : unpin_scope.
Local Open Scope unpin_scope.

(** A DecimalIntegerLiteral: [0], or a non-zero digit and more digits,
    not followed by an identifier character or a dot. *)
Definition lex_number (s : list ascii) : presult lit :=
  match s with
  | c :: s' =>
      if negb (is_digit c) then PErr
      else if Ascii.eqb c "0" && match s' with d :: _ => is_digit d | [] => false end then PErr
      else
        let '(n, r) := lex_digits (digit_value c) s' in
        match r with
        | d :: _ => if is_ident_part d then PErr else POk (LNum n) r
        | [] => POk (LNum n) r
        end
  | [] => PErr
  end.

(** ** The parser *)

(** The punctuator [c], after white space: the text after it. *)
Definition punct (c : ascii) (s : list ascii) : option (list ascii) :=
  match skip_ws s with
  | d :: r => if Ascii.eqb d c then Some r else None
  | [] => None
  end.

(** A PropertyName that is a string literal, and the colon after it. *)
Definition lex_key (s : list ascii) : option (string * list ascii) :=
  match punct dquote s with
  | Some r1 =>
      match lex_string r1 with
      | Some (k, r2) =>
          match punct ":" r2 with
          | Some r3 => Some (string_of_list_ascii k, r3)
          | None => None
          end
      | None => None
      end
  | None => None
  end.

Fixpoint parse_value (n : nat) (s : list ascii) {struct n} : presult lit :=
  match n with
  | O => PFuel
  | S n' =>
      match skip_ws s with
      | c :: r =>
          if Ascii.eqb c dquote then
            match lex_string r with
            | Some (cs, r') => POk (LStr (string_of_list_ascii cs)) r'
            | None => PErr
            end
          else if Ascii.eqb c "[" then
            match punct "]" r with
            | Some r' => POk (LArr []) r'
            | None =>
                let+ (e, r1) := parse_value n' r in parse_elems n' [e] r1
            end
          else if Ascii.eqb c "{" then
            match punct "}" r with
            | Some r' => POk (LObj []) r'
            | None =>
                match lex_key r with
                | Some (k, r1) =>
                    let+ (e, r2) := parse_value n' r1 in parse_props n' [(k, e)] r2
                | None => PErr
                end
            end
          else lex_number (c :: r)
      | [] => PErr
      end
  end

(** After an element of an array literal: a comma and the next element, or
    the closing bracket (after an optional trailing comma). *)
with parse_elems (n : nat) (acc : list lit) (s : list ascii) {struct n} : presult lit :=
  match n with
  | O => PFuel
  | S n' =>
      match punct "]" s with
      | Some r => POk (LArr acc) r
      | None =>
          match punct "," s with
          | Some r =>
              match punct "]" r with
              | Some r' => POk (LArr acc) r'
              | None =>
                  let+ (e, r1) := parse_value n' r in parse_elems n' (acc ++ [e]) r1
              end
          | None => PErr
          end
      end
  end

(** After a property of an object literal: a comma and the next property,
    or the closing brace (after an optional trailing comma). *)
with parse_props (n : nat) (acc : list (string * lit)) (s : list ascii) {struct n} :
    presult lit :=
  match n with
  | O => PFuel
  | S n' =>
      match punct "}" s with
      | Some r => POk (LObj acc) r
      | None =>
          match punct "," s with
          | Some r =>
              match punct "}" r with
              | Some r' => POk (LObj acc) r'
              | None =>
                  match lex_key r with
                  | Some (k, r1) =>
                      let+ (e, r2) := parse_value n' r1 in parse_props n' (acc ++ [(k, e)]) r2
                  | None => PErr
                  end
              end
          | None => PErr
          end
      end
  end.
