(* ===== verification/ImplementorTable.v ===== *)
(** * The implementor table as the shell reads it

    The spec (§3, §6) describes the table that [trait.Unpin.js] hands over
    as [{ [crate: string]: Array<[html: string, flag: number, path:
    string[]]> }].  The literal in the source has two shapes of record:
    triples [[html, 1, [path]]] and singletons [[html]].  [impl_record]
    has one constructor per shape.  [decode_table] is the check that a
    literal has this shape.

    The module [Markup] reads the markup of a record: the name of the
    implementing type, taken from the anchor after [" for "], and the last
    segment of a path.

    The file has no theorems of its own: [UnpinTable] applies these
    checks to the table of the source, for the findings. *)

From Stdlib Require Import String Ascii ZArith.
From stdpp Require Import base list option strings.
From S2P Require Import Prelude JsValue Literal.

(** ** Typed records *)

Inductive impl_record :=
  | ImplSynthetic (html : string) (flag : Z) (path : list string)
  | ImplExplicit (html : string).

#[export] Instance impl_record_eq_dec : EqDecision impl_record.
Proof. solve_decision. Defined.

Definition table := list (string * list impl_record).

Definition record_html (r : impl_record) : string :=
  match r with ImplSynthetic h _ _ | ImplExplicit h => h end.

(** ** Decoding a literal *)

Definition decode_str (e : lit) : option string :=
  match e with LStr s => Some s | _ => None end.

Definition decode_record (e : lit) : option impl_record :=
  match e with
  | LArr [LStr h; LNum n; LArr ps] => ImplSynthetic h n <$> mapM decode_str ps
  | LArr [LStr h] => Some (ImplExplicit h)
  | _ => None
  end.

Definition decode_crate (kv : string * lit) : option (string * list impl_record) :=
  match kv.2 with
  | LArr rs => pair kv.1 <$> mapM decode_record rs
  | _ => None
  end.

Definition decode_table (e : lit) : option table :=
  match e with LObj ps => mapM decode_crate ps | _ => None end.

(** ** Properties of every record *)

(** A boolean test holds of every record of every crate. *)
Definition table_forall (P : string → impl_record → bool) (t : table) : bool :=
  forallb (λ kr, forallb (P kr.1) kr.2) t.

Lemma table_forall_spec (P : string → impl_record → bool) (t : table) :
  table_forall P t = true ↔ ∀ c rs r, (c, rs) ∈ t → r ∈ rs → P c r = true.
Proof.
  unfold table_forall. rewrite forallb_Forall_eq, Forall_forall. split.
  - intros H c rs r Hc Hr. specialize (H _ Hc). simpl in H.
    apply forallb_Forall_eq in H. rewrite Forall_forall in H. by apply H.
  - intros H [c rs] Hc. apply forallb_Forall_eq, Forall_forall. intros r Hr. by apply (H c rs r).
Qed.

(** The number of records of each shape. *)
Definition is_explicit (r : impl_record) : bool :=
  match r with ImplExplicit _ => true | _ => false end.

Definition count_records (P : impl_record → bool) (t : table) : nat :=
  sum_list (map (λ kr, length (filter P kr.2)) t).

(** ** Reading the markup *)

Module Markup.
Local Open Scope string_scope.

(** The text after the first occurrence of [pat]. *)
Definition after (pat s : string) : option string :=
  match String.index 0 pat s with
  | Some i => Some (String.substring (i + String.length pat) (String.length s) s)
  | None => None
  end.

(** The text up to the first [c]. *)
Fixpoint take_until (c : ascii) (s : string) : string :=
  match s with
  | EmptyString => EmptyString
  | String d s' => if Ascii.eqb d c then EmptyString else String d (take_until c s')
  end.

(** The implementing type of an [impl] block: the text of the anchor
    that follows [" for "]. *)
Definition impl_target (html : string) : option string :=
  match after " for <a " html with
  | Some r => match after ">" r with Some r' => Some (take_until "<"%char r') | None => None end
  | None => None
  end.

(** The segments of a Rust path, split at ["::"]. *)
Fixpoint split_path_from (s cur : string) : list string :=
  match s with
  | EmptyString => [cur]
  | String c s' =>
      if Ascii.eqb c ":"%char then
        match s' with
        | String d s'' =>
            if Ascii.eqb d ":"%char then cur :: split_path_from s'' ""
            else split_path_from s' (cur ++ String c "")
        | EmptyString => [cur ++ String c ""]
        end
      else split_path_from s' (cur ++ String c "")
  end.

Definition split_path (s : string) : list string := split_path_from s "".

Example split_path_ex : split_path "actix::actor::Running" = ["actix"; "actor"; "Running"].
Proof. reflexivity. Qed.

(** A triple names one path, whose first segment is the crate and whose
    last segment is the type its markup implements the trait for. *)
Definition path_matches (crate : string) (r : impl_record) : bool :=
  match r with
  | ImplSynthetic h _ [p] =>
      match split_path p, impl_target h with
      | c :: _, Some ty => String.eqb c crate && bool_decide (last (split_path p) = Some ty)
      | _, _ => false
      end
  | ImplSynthetic _ _ _ => false
  | ImplExplicit h => bool_decide (is_Some (impl_target h))
  end.
End Markup.
