(* ===== verification/UnpinTable.v ===== *)
(** * The table literal of [trait.Unpin.js]

    Lines 1 to 3 of [src/implementors/core/marker/trait.Unpin.js]: the
    object literal bound to [implementors], transcribed string by string.
    The strings are written as their JavaScript source text.  A Rocq string
    literal cannot hold a lone double quote, so the escape backslash-quote is
    written backslash-backquote (the source has no backquote); the escape
    backslash-n is kept as written.
    [js_unescape] is the lexer's reading of such a string literal.
    [rec3] and [rec1] are the two shapes of record literal in the source,
    a triple of markup, flag and path, and a singleton of markup.

    Lemmas, computed on the literal: it repeats no key and has depth 4
    (used by [Loader]); 19 of the 51 records are singletons without flag
    or path, and each path is one string whose segments name the crate and
    the type of the markup (the evidence for two findings). *)

From Stdlib Require Import String Ascii ZArith.
From stdpp Require Import base list option strings.
From S2P Require Import Prelude JsValue Literal ImplementorTable.

Local Open Scope string_scope.

(** The value of a string literal: backslash-n is a line feed,
    backslash-backquote stands for backslash-quote and is a double quote,
    and any other escaped character is itself. *)
Fixpoint js_unescape (s : string) : string :=
  match s with
  | EmptyString => EmptyString
  | String c s' =>
      if Ascii.eqb c "\"%char then
        match s' with
        | String d s'' =>
            let d' := if Ascii.eqb d "n"%char then "010"%char
                      else if Ascii.eqb d "`"%char then "034"%char else d in
            String d' (js_unescape s'')
        | EmptyString => String c EmptyString
        end
      else String c (js_unescape s')
  end.

(** The record literal of a triple: markup, flag, path. *)
Definition rec3 (html : string) (flag : Z) (path : list string) : lit :=
  LArr [LStr (js_unescape html); LNum flag; LArr (map (λ p, LStr (js_unescape p)) path)].

(** The record literal of a singleton: markup only. *)
Definition rec1 (html : string) : lit := LArr [LStr (js_unescape html)].

(** The initialiser of [var implementors] (lines 1 to 3). *)
Definition implementors_lit : lit :=
  LObj [
    ("actix", LArr [
      rec3 "impl <a class=\`trait\` href=\`https://doc.rust-lang.org/nightly/core/marker/trait.Unpin.html\` title=\`trait core::marker::Unpin\`>Unpin</a> for <a class=\`enum\` href=\`actix/prelude/enum.ActorState.html\` title=\`enum actix::prelude::ActorState\`>ActorState</a>"
        1 ["actix::actor::ActorState"];
      rec3 "impl <a class=\`trait\` href=\`https://doc.rust-lang.org/nightly/core/marker/trait.Unpin.html\` title=\`trait core::marker::Unpin\`>Unpin</a> for <a class=\`enum\` href=\`actix/prelude/enum.Running.html\` title=\`enum actix::prelude::Running\`>Running</a>"
        1 ["actix::actor::Running"];
      rec3 "impl <a class=\`trait\` href=\`https://doc.rust-lang.org/nightly/core/marker/trait.Unpin.html\` title=\`trait core::marker::Unpin\`>Unpin</a> for <a class=\`struct\` href=\`actix/prelude/struct.SpawnHandle.html\` title=\`struct actix::prelude::SpawnHandle\`>SpawnHandle</a>"
        1 ["actix::actor::SpawnHandle"];
      rec3 "impl&lt;A&gt; <a class=\`trait\` href=\`https://doc.rust-lang.org/nightly/core/marker/trait.Unpin.html\` title=\`trait core::marker::Unpin\`>Unpin</a> for <a class=\`struct\` href=\`actix/prelude/struct.Context.html\` title=\`struct actix::prelude::Context\`>Context</a>&lt;A&gt;"
        1 ["actix::context::Context"];
      rec3 "impl&lt;A&gt; <a class=\`trait\` href=\`https://doc.rust-lang.org/nightly/core/marker/trait.Unpin.html\` title=\`trait core::marker::Unpin\`>Unpin</a> for <a class=\`struct\` href=\`actix/dev/struct.ContextParts.html\` title=\`struct actix::dev::ContextParts\`>ContextParts</a>&lt;A&gt;"
        1 ["actix::contextimpl::ContextParts"];
      rec3 "impl&lt;A, C&gt; <a class=\`trait\` href=\`https://doc.rust-lang.org/nightly/core/marker/trait.Unpin.html\` title=\`trait core::marker::Unpin\`>Unpin</a> for <a class=\`struct\` href=\`actix/dev/struct.ContextFut.html\` title=\`struct actix::dev::ContextFut\`>ContextFut</a>&lt;A, C&gt;"
        1 ["actix::contextimpl::ContextFut"];
      rec3 "impl&lt;M&gt; <a class=\`trait\` href=\`https://doc.rust-lang.org/nightly/core/marker/trait.Unpin.html\` title=\`trait core::marker::Unpin\`>Unpin</a> for <a class=\`struct\` href=\`actix/prelude/struct.MessageResult.html\` title=\`struct actix::prelude::MessageResult\`>MessageResult</a>&lt;M&gt;<span class=\`where fmt-newline\`>where\n    &lt;M as <a class=\`trait\` href=\`actix/prelude/trait.Message.html\` title=\`trait actix::prelude::Message\`>Message</a>&gt;::<a class=\`associatedtype\` href=\`actix/prelude/trait.Message.html#associatedtype.Result\` title=\`type actix::prelude::Message::Result\`>Result</a>: <a class=\`trait\` href=\`https://doc.rust-lang.org/nightly/core/marker/trait.Unpin.html\` title=\`trait core::marker::Unpin\`>Unpin</a>,</span>"
        1 ["actix::handler::MessageResult"];
      rec3 "impl&lt;A, T&gt; <a class=\`trait\` href=\`https://doc.rust-lang.org/nightly/core/marker/trait.Unpin.html\` title=\`trait core::marker::Unpin\`>Unpin</a> for <a class=\`struct\` href=\`actix/prelude/struct.AtomicResponse.html\` title=\`struct actix::prelude::AtomicResponse\`>AtomicResponse</a>&lt;A, T&gt;"
        1 ["actix::handler::AtomicResponse"];
      rec3 "impl&lt;I&gt; <a class=\`trait\` href=\`https://doc.rust-lang.org/nightly/core/marker/trait.Unpin.html\` title=\`trait core::marker::Unpin\`>Unpin</a> for <a class=\`struct\` href=\`actix/prelude/struct.Response.html\` title=\`struct actix::prelude::Response\`>Response</a>&lt;I&gt;<span class=\`where fmt-newline\`>where\n    I: <a class=\`trait\` href=\`https://doc.rust-lang.org/nightly/core/marker/trait.Unpin.html\` title=\`trait core::marker::Unpin\`>Unpin</a>,</span>"
        1 ["actix::handler::Response"];
      rec3 "impl&lt;A, I&gt; <a class=\`trait\` href=\`https://doc.rust-lang.org/nightly/core/marker/trait.Unpin.html\` title=\`trait core::marker::Unpin\`>Unpin</a> for <a class=\`struct\` href=\`actix/prelude/struct.ActorResponse.html\` title=\`struct actix::prelude::ActorResponse\`>ActorResponse</a>&lt;A, I&gt;<span class=\`where fmt-newline\`>where\n    I: <a class=\`trait\` href=\`https://doc.rust-lang.org/nightly/core/marker/trait.Unpin.html\` title=\`trait core::marker::Unpin\`>Unpin</a>,</span>"
        1 ["actix::handler::ActorResponse"];
      rec3 "impl&lt;A&gt; <a class=\`trait\` href=\`https://doc.rust-lang.org/nightly/core/marker/trait.Unpin.html\` title=\`trait core::marker::Unpin\`>Unpin</a> for <a class=\`struct\` href=\`actix/dev/channel/struct.AddressSender.html\` title=\`struct actix::dev::channel::AddressSender\`>AddressSender</a>&lt;A&gt;"
        1 ["actix::address::channel::AddressSender"];
      rec3 "impl&lt;A&gt; <a class=\`trait\` href=\`https://doc.rust-lang.org/nightly/core/marker/trait.Unpin.html\` title=\`trait core::marker::Unpin\`>Unpin</a> for <a class=\`struct\` href=\`actix/dev/channel/struct.AddressReceiver.html\` title=\`struct actix::dev::channel::AddressReceiver\`>AddressReceiver</a>&lt;A&gt;"
        1 ["actix::address::channel::AddressReceiver"];
      rec3 "impl&lt;A&gt; <a class=\`trait\` href=\`https://doc.rust-lang.org/nightly/core/marker/trait.Unpin.html\` title=\`trait core::marker::Unpin\`>Unpin</a> for <a class=\`struct\` href=\`actix/dev/struct.Envelope.html\` title=\`struct actix::dev::Envelope\`>Envelope</a>&lt;A&gt;"
        1 ["actix::address::envelope::Envelope"];
      rec3 "impl&lt;T&gt; <a class=\`trait\` href=\`https://doc.rust-lang.org/nightly/core/marker/trait.Unpin.html\` title=\`trait core::marker::Unpin\`>Unpin</a> for <a class=\`enum\` href=\`actix/prelude/enum.SendError.html\` title=\`enum actix::prelude::SendError\`>SendError</a>&lt;T&gt;<span class=\`where fmt-newline\`>where\n    T: <a class=\`trait\` href=\`https://doc.rust-lang.org/nightly/core/marker/trait.Unpin.html\` title=\`trait core::marker::Unpin\`>Unpin</a>,</span>"
        1 ["actix::address::SendError"];
      rec3 "impl <a class=\`trait\` href=\`https://doc.rust-lang.org/nightly/core/marker/trait.Unpin.html\` title=\`trait core::marker::Unpin\`>Unpin</a> for <a class=\`enum\` href=\`actix/prelude/enum.MailboxError.html\` title=\`enum actix::prelude::MailboxError\`>MailboxError</a>"
        1 ["actix::address::MailboxError"];
      rec3 "impl&lt;A&gt; <a class=\`trait\` href=\`https://doc.rust-lang.org/nightly/core/marker/trait.Unpin.html\` title=\`trait core::marker::Unpin\`>Unpin</a> for <a class=\`struct\` href=\`actix/prelude/struct.Addr.html\` title=\`struct actix::prelude::Addr\`>Addr</a>&lt;A&gt;"
        1 ["actix::address::Addr"];
      rec3 "impl&lt;A&gt; <a class=\`trait\` href=\`https://doc.rust-lang.org/nightly/core/marker/trait.Unpin.html\` title=\`trait core::marker::Unpin\`>Unpin</a> for <a class=\`struct\` href=\`actix/struct.WeakAddr.html\` title=\`struct actix::WeakAddr\`>WeakAddr</a>&lt;A&gt;"
        1 ["actix::address::WeakAddr"];
      rec3 "impl&lt;M&gt; <a class=\`trait\` href=\`https://doc.rust-lang.org/nightly/core/marker/trait.Unpin.html\` title=\`trait core::marker::Unpin\`>Unpin</a> for <a class=\`struct\` href=\`actix/prelude/struct.Recipient.html\` title=\`struct actix::prelude::Recipient\`>Recipient</a>&lt;M&gt;"
        1 ["actix::address::Recipient"];
      rec3 "impl&lt;M&gt; <a class=\`trait\` href=\`https://doc.rust-lang.org/nightly/core/marker/trait.Unpin.html\` title=\`trait core::marker::Unpin\`>Unpin</a> for <a class=\`struct\` href=\`actix/struct.WeakRecipient.html\` title=\`struct actix::WeakRecipient\`>WeakRecipient</a>&lt;M&gt;"
        1 ["actix::address::WeakRecipient"];
      rec3 "impl&lt;A&gt; <a class=\`trait\` href=\`https://doc.rust-lang.org/nightly/core/marker/trait.Unpin.html\` title=\`trait core::marker::Unpin\`>Unpin</a> for <a class=\`struct\` href=\`actix/dev/struct.Mailbox.html\` title=\`struct actix::dev::Mailbox\`>Mailbox</a>&lt;A&gt;"
        1 ["actix::mailbox::Mailbox"];
      rec3 "impl&lt;T&gt; <a class=\`trait\` href=\`https://doc.rust-lang.org/nightly/core/marker/trait.Unpin.html\` title=\`trait core::marker::Unpin\`>Unpin</a> for <a class=\`struct\` href=\`actix/actors/mocker/struct.Mocker.html\` title=\`struct actix::actors::mocker::Mocker\`>Mocker</a>&lt;T&gt;"
        1 ["actix::actors::mocker::Mocker"];
      rec3 "impl&lt;T, E&gt; <a class=\`trait\` href=\`https://doc.rust-lang.org/nightly/core/marker/trait.Unpin.html\` title=\`trait core::marker::Unpin\`>Unpin</a> for <a class=\`struct\` href=\`actix/io/struct.Writer.html\` title=\`struct actix::io::Writer\`>Writer</a>&lt;T, E&gt;"
        1 ["actix::io::Writer"];
      rec3 "impl&lt;I, T, U&gt; <a class=\`trait\` href=\`https://doc.rust-lang.org/nightly/core/marker/trait.Unpin.html\` title=\`trait core::marker::Unpin\`>Unpin</a> for <a class=\`struct\` href=\`actix/io/struct.FramedWrite.html\` title=\`struct actix::io::FramedWrite\`>FramedWrite</a>&lt;I, T, U&gt;<span class=\`where fmt-newline\`>where\n    U: <a class=\`trait\` href=\`https://doc.rust-lang.org/nightly/core/marker/trait.Unpin.html\` title=\`trait core::marker::Unpin\`>Unpin</a>,</span>"
        1 ["actix::io::FramedWrite"];
      rec3 "impl&lt;I, S&gt; <a class=\`trait\` href=\`https://doc.rust-lang.org/nightly/core/marker/trait.Unpin.html\` title=\`trait core::marker::Unpin\`>Unpin</a> for <a class=\`struct\` href=\`actix/io/struct.SinkWrite.html\` title=\`struct actix::io::SinkWrite\`>SinkWrite</a>&lt;I, S&gt;"
        1 ["actix::io::SinkWrite"];
      rec3 "impl <a class=\`trait\` href=\`https://doc.rust-lang.org/nightly/core/marker/trait.Unpin.html\` title=\`trait core::marker::Unpin\`>Unpin</a> for <a class=\`struct\` href=\`actix/registry/struct.Registry.html\` title=\`struct actix::registry::Registry\`>Registry</a>"
        1 ["actix::registry::Registry"];
      rec3 "impl <a class=\`trait\` href=\`https://doc.rust-lang.org/nightly/core/marker/trait.Unpin.html\` title=\`trait core::marker::Unpin\`>Unpin</a> for <a class=\`struct\` href=\`actix/registry/struct.SystemRegistry.html\` title=\`struct actix::registry::SystemRegistry\`>SystemRegistry</a>"
        1 ["actix::registry::SystemRegistry"];
      rec3 "impl&lt;A&gt; <a class=\`trait\` href=\`https://doc.rust-lang.org/nightly/core/marker/trait.Unpin.html\` title=\`trait core::marker::Unpin\`>Unpin</a> for <a class=\`struct\` href=\`actix/sync/struct.SyncArbiter.html\` title=\`struct actix::sync::SyncArbiter\`>SyncArbiter</a>&lt;A&gt;"
        1 ["actix::sync::SyncArbiter"];
      rec3 "impl&lt;A&gt; <a class=\`trait\` href=\`https://doc.rust-lang.org/nightly/core/marker/trait.Unpin.html\` title=\`trait core::marker::Unpin\`>Unpin</a> for <a class=\`struct\` href=\`actix/sync/struct.SyncContext.html\` title=\`struct actix::sync::SyncContext\`>SyncContext</a>&lt;A&gt;"
        1 ["actix::sync::SyncContext"];
      rec3 "impl&lt;T&gt; <a class=\`trait\` href=\`https://doc.rust-lang.org/nightly/core/marker/trait.Unpin.html\` title=\`trait core::marker::Unpin\`>Unpin</a> for <a class=\`struct\` href=\`actix/utils/struct.Condition.html\` title=\`struct actix::utils::Condition\`>Condition</a>&lt;T&gt;"
        1 ["actix::utils::Condition"];
      rec1 "impl&lt;'__pin, Fut, F&gt; <a class=\`trait\` href=\`https://doc.rust-lang.org/nightly/core/marker/trait.Unpin.html\` title=\`trait core::marker::Unpin\`>Unpin</a> for <a class=\`enum\` href=\`actix/fut/try_future/enum.MapErr.html\` title=\`enum actix::fut::try_future::MapErr\`>MapErr</a>&lt;Fut, F&gt;<span class=\`where fmt-newline\`>where\n    __Origin&lt;'__pin, Fut, F&gt;: <a class=\`trait\` href=\`https://doc.rust-lang.org/nightly/core/marker/trait.Unpin.html\` title=\`trait core::marker::Unpin\`>Unpin</a>,</span>";
      rec1 "impl&lt;'__pin, S&gt; <a class=\`trait\` href=\`https://doc.rust-lang.org/nightly/core/marker/trait.Unpin.html\` title=\`trait core::marker::Unpin\`>Unpin</a> for <a class=\`struct\` href=\`actix/fut/stream/struct.Timeout.html\` title=\`struct actix::fut::stream::Timeout\`>Timeout</a>&lt;S&gt;<span class=\`where fmt-newline\`>where\n    __Origin&lt;'__pin, S&gt;: <a class=\`trait\` href=\`https://doc.rust-lang.org/nightly/core/marker/trait.Unpin.html\` title=\`trait core::marker::Unpin\`>Unpin</a>,</span>";
      rec1 "impl&lt;'__pin, S, F, Fut&gt; <a class=\`trait\` href=\`https://doc.rust-lang.org/nightly/core/marker/trait.Unpin.html\` title=\`trait core::marker::Unpin\`>Unpin</a> for <a class=\`struct\` href=\`actix/fut/stream/struct.Then.html\` title=\`struct actix::fut::stream::Then\`>Then</a>&lt;S, F, Fut&gt;<span class=\`where fmt-newline\`>where\n    __Origin&lt;'__pin, S, F, Fut&gt;: <a class=\`trait\` href=\`https://doc.rust-lang.org/nightly/core/marker/trait.Unpin.html\` title=\`trait core::marker::Unpin\`>Unpin</a>,</span>";
      rec1 "impl&lt;'__pin, Fut, F&gt; <a class=\`trait\` href=\`https://doc.rust-lang.org/nightly/core/marker/trait.Unpin.html\` title=\`trait core::marker::Unpin\`>Unpin</a> for <a class=\`enum\` href=\`actix/fut/future/enum.Map.html\` title=\`enum actix::fut::future::Map\`>Map</a>&lt;Fut, F&gt;<span class=\`where fmt-newline\`>where\n    __Origin&lt;'__pin, Fut, F&gt;: <a class=\`trait\` href=\`https://doc.rust-lang.org/nightly/core/marker/trait.Unpin.html\` title=\`trait core::marker::Unpin\`>Unpin</a>,</span>";
      rec1 "impl&lt;'__pin, F&gt; <a class=\`trait\` href=\`https://doc.rust-lang.org/nightly/core/marker/trait.Unpin.html\` title=\`trait core::marker::Unpin\`>Unpin</a> for <a class=\`struct\` href=\`actix/fut/future/struct.Timeout.html\` title=\`struct actix::fut::future::Timeout\`>Timeout</a>&lt;F&gt;<span class=\`where fmt-newline\`>where\n    __Origin&lt;'__pin, F&gt;: <a class=\`trait\` href=\`https://doc.rust-lang.org/nightly/core/marker/trait.Unpin.html\` title=\`trait core::marker::Unpin\`>Unpin</a>,</span>";
      rec1 "impl&lt;'__pin, S, F&gt; <a class=\`trait\` href=\`https://doc.rust-lang.org/nightly/core/marker/trait.Unpin.html\` title=\`trait core::marker::Unpin\`>Unpin</a> for <a class=\`struct\` href=\`actix/fut/stream/struct.Map.html\` title=\`struct actix::fut::stream::Map\`>Map</a>&lt;S, F&gt;<span class=\`where fmt-newline\`>where\n    __Origin&lt;'__pin, S, F&gt;: <a class=\`trait\` href=\`https://doc.rust-lang.org/nightly/core/marker/trait.Unpin.html\` title=\`trait core::marker::Unpin\`>Unpin</a>,</span>";
      rec1 "impl&lt;'__pin, Fut, F&gt; <a class=\`trait\` href=\`https://doc.rust-lang.org/nightly/core/marker/trait.Unpin.html\` title=\`trait core::marker::Unpin\`>Unpin</a> for <a class=\`enum\` href=\`actix/fut/try_future/enum.MapOk.html\` title=\`enum actix::fut::try_future::MapOk\`>MapOk</a>&lt;Fut, F&gt;<span class=\`where fmt-newline\`>where\n    __Origin&lt;'__pin, Fut, F&gt;: <a class=\`trait\` href=\`https://doc.rust-lang.org/nightly/core/marker/trait.Unpin.html\` title=\`trait core::marker::Unpin\`>Unpin</a>,</span>";
      rec1 "impl&lt;'__pin, F, A&gt; <a class=\`trait\` href=\`https://doc.rust-lang.org/nightly/core/marker/trait.Unpin.html\` title=\`trait core::marker::Unpin\`>Unpin</a> for <a class=\`struct\` href=\`actix/fut/future/struct.FutureWrap.html\` title=\`struct actix::fut::future::FutureWrap\`>FutureWrap</a>&lt;F, A&gt;<span class=\`where fmt-newline\`>where\n    __Origin&lt;'__pin, F, A&gt;: <a class=\`trait\` href=\`https://doc.rust-lang.org/nightly/core/marker/trait.Unpin.html\` title=\`trait core::marker::Unpin\`>Unpin</a>,\n    F: <a class=\`trait\` href=\`https://doc.rust-lang.org/nightly/core/future/future/trait.Future.html\` title=\`trait core::future::future::Future\`>Future</a>,\n    A: <a class=\`trait\` href=\`actix/prelude/trait.Actor.html\` title=\`trait actix::prelude::Actor\`>Actor</a>,</span>";
      rec1 "impl&lt;'__pin, S, C&gt; <a class=\`trait\` href=\`https://doc.rust-lang.org/nightly/core/marker/trait.Unpin.html\` title=\`trait core::marker::Unpin\`>Unpin</a> for <a class=\`struct\` href=\`actix/fut/stream/struct.Collect.html\` title=\`struct actix::fut::stream::Collect\`>Collect</a>&lt;S, C&gt;<span class=\`where fmt-newline\`>where\n    __Origin&lt;'__pin, S, C&gt;: <a class=\`trait\` href=\`https://doc.rust-lang.org/nightly/core/marker/trait.Unpin.html\` title=\`trait core::marker::Unpin\`>Unpin</a>,</span>";
      rec1 "impl&lt;'__pin, S, F, Fut, T&gt; <a class=\`trait\` href=\`https://doc.rust-lang.org/nightly/core/marker/trait.Unpin.html\` title=\`trait core::marker::Unpin\`>Unpin</a> for <a class=\`struct\` href=\`actix/fut/stream/struct.Fold.html\` title=\`struct actix::fut::stream::Fold\`>Fold</a>&lt;S, F, Fut, T&gt;<span class=\`where fmt-newline\`>where\n    __Origin&lt;'__pin, S, F, Fut, T&gt;: <a class=\`trait\` href=\`https://doc.rust-lang.org/nightly/core/marker/trait.Unpin.html\` title=\`trait core::marker::Unpin\`>Unpin</a>,</span>";
      rec1 "impl&lt;'__pin, S, A&gt; <a class=\`trait\` href=\`https://doc.rust-lang.org/nightly/core/marker/trait.Unpin.html\` title=\`trait core::marker::Unpin\`>Unpin</a> for <a class=\`struct\` href=\`actix/fut/stream/struct.StreamWrap.html\` title=\`struct actix::fut::stream::StreamWrap\`>StreamWrap</a>&lt;S, A&gt;<span class=\`where fmt-newline\`>where\n    __Origin&lt;'__pin, S, A&gt;: <a class=\`trait\` href=\`https://doc.rust-lang.org/nightly/core/marker/trait.Unpin.html\` title=\`trait core::marker::Unpin\`>Unpin</a>,\n    S: <a class=\`trait\` href=\`actix/prelude/trait.Stream.html\` title=\`trait actix::prelude::Stream\`>Stream</a>,\n    A: <a class=\`trait\` href=\`actix/prelude/trait.Actor.html\` title=\`trait actix::prelude::Actor\`>Actor</a>,</span>";
      rec1 "impl&lt;'__pin, A: <a class=\`trait\` href=\`actix/prelude/trait.Actor.html\` title=\`trait actix::prelude::Actor\`>Actor</a>&gt; <a class=\`trait\` href=\`https://doc.rust-lang.org/nightly/core/marker/trait.Unpin.html\` title=\`trait core::marker::Unpin\`>Unpin</a> for <a class=\`struct\` href=\`actix/utils/struct.IntervalFunc.html\` title=\`struct actix::utils::IntervalFunc\`>IntervalFunc</a>&lt;A&gt;<span class=\`where fmt-newline\`>where\n    __Origin&lt;'__pin, A&gt;: <a class=\`trait\` href=\`https://doc.rust-lang.org/nightly/core/marker/trait.Unpin.html\` title=\`trait core::marker::Unpin\`>Unpin</a>,</span>";
      rec1 "impl&lt;'__pin, A: <a class=\`trait\` href=\`actix/prelude/trait.Actor.html\` title=\`trait actix::prelude::Actor\`>Actor</a>&gt; <a class=\`trait\` href=\`https://doc.rust-lang.org/nightly/core/marker/trait.Unpin.html\` title=\`trait core::marker::Unpin\`>Unpin</a> for <a class=\`struct\` href=\`actix/utils/struct.TimerFunc.html\` title=\`struct actix::utils::TimerFunc\`>TimerFunc</a>&lt;A&gt;<span class=\`where fmt-newline\`>where\n    __Origin&lt;'__pin, A&gt;: <a class=\`trait\` href=\`https://doc.rust-lang.org/nightly/core/marker/trait.Unpin.html\` title=\`trait core::marker::Unpin\`>Unpin</a>,</span>";
      rec1 "impl&lt;'__pin, S, I, F, Fut&gt; <a class=\`trait\` href=\`https://doc.rust-lang.org/nightly/core/marker/trait.Unpin.html\` title=\`trait core::marker::Unpin\`>Unpin</a> for <a class=\`struct\` href=\`actix/fut/stream/struct.SkipWhile.html\` title=\`struct actix::fut::stream::SkipWhile\`>SkipWhile</a>&lt;S, I, F, Fut&gt;<span class=\`where fmt-newline\`>where\n    __Origin&lt;'__pin, S, I, F, Fut&gt;: <a class=\`trait\` href=\`https://doc.rust-lang.org/nightly/core/marker/trait.Unpin.html\` title=\`trait core::marker::Unpin\`>Unpin</a>,</span>";
      rec1 "impl&lt;'__pin, A&gt; <a class=\`trait\` href=\`https://doc.rust-lang.org/nightly/core/marker/trait.Unpin.html\` title=\`trait core::marker::Unpin\`>Unpin</a> for <a class=\`struct\` href=\`actix/prelude/struct.Supervisor.html\` title=\`struct actix::prelude::Supervisor\`>Supervisor</a>&lt;A&gt;<span class=\`where fmt-newline\`>where\n    __Origin&lt;'__pin, A&gt;: <a class=\`trait\` href=\`https://doc.rust-lang.org/nightly/core/marker/trait.Unpin.html\` title=\`trait core::marker::Unpin\`>Unpin</a>,\n    A: <a class=\`trait\` href=\`actix/prelude/trait.Supervised.html\` title=\`trait actix::prelude::Supervised\`>Supervised</a> + <a class=\`trait\` href=\`actix/prelude/trait.Actor.html\` title=\`trait actix::prelude::Actor\`>Actor</a>&lt;Context = <a class=\`struct\` href=\`actix/prelude/struct.Context.html\` title=\`struct actix::prelude::Context\`>Context</a>&lt;A&gt;&gt;,</span>";
      rec1 "impl&lt;'__pin, S&gt; <a class=\`trait\` href=\`https://doc.rust-lang.org/nightly/core/marker/trait.Unpin.html\` title=\`trait core::marker::Unpin\`>Unpin</a> for <a class=\`struct\` href=\`actix/fut/stream/struct.Finish.html\` title=\`struct actix::fut::stream::Finish\`>Finish</a>&lt;S&gt;<span class=\`where fmt-newline\`>where\n    __Origin&lt;'__pin, S&gt;: <a class=\`trait\` href=\`https://doc.rust-lang.org/nightly/core/marker/trait.Unpin.html\` title=\`trait core::marker::Unpin\`>Unpin</a>,</span>";
      rec1 "impl&lt;'__pin, A, B, F&gt; <a class=\`trait\` href=\`https://doc.rust-lang.org/nightly/core/marker/trait.Unpin.html\` title=\`trait core::marker::Unpin\`>Unpin</a> for <a class=\`enum\` href=\`actix/fut/future/enum.Then.html\` title=\`enum actix::fut::future::Then\`>Then</a>&lt;A, B, F&gt;<span class=\`where fmt-newline\`>where\n    __Origin&lt;'__pin, A, B, F&gt;: <a class=\`trait\` href=\`https://doc.rust-lang.org/nightly/core/marker/trait.Unpin.html\` title=\`trait core::marker::Unpin\`>Unpin</a>,</span>";
      rec1 "impl&lt;'__pin, A, B, F&gt; <a class=\`trait\` href=\`https://doc.rust-lang.org/nightly/core/marker/trait.Unpin.html\` title=\`trait core::marker::Unpin\`>Unpin</a> for <a class=\`enum\` href=\`actix/fut/try_future/enum.AndThen.html\` title=\`enum actix::fut::try_future::AndThen\`>AndThen</a>&lt;A, B, F&gt;<span class=\`where fmt-newline\`>where\n    __Origin&lt;'__pin, A, B, F&gt;: <a class=\`trait\` href=\`https://doc.rust-lang.org/nightly/core/marker/trait.Unpin.html\` title=\`trait core::marker::Unpin\`>Unpin</a>,</span>";
      rec1 "impl&lt;'__pin, S, I, F, Fut&gt; <a class=\`trait\` href=\`https://doc.rust-lang.org/nightly/core/marker/trait.Unpin.html\` title=\`trait core::marker::Unpin\`>Unpin</a> for <a class=\`struct\` href=\`actix/fut/stream/struct.TakeWhile.html\` title=\`struct actix::fut::stream::TakeWhile\`>TakeWhile</a>&lt;S, I, F, Fut&gt;<span class=\`where fmt-newline\`>where\n    __Origin&lt;'__pin, S, I, F, Fut&gt;: <a class=\`trait\` href=\`https://doc.rust-lang.org/nightly/core/marker/trait.Unpin.html\` title=\`trait core::marker::Unpin\`>Unpin</a>,</span>"]);
    ("actix_broker", LArr [
      rec3 "impl&lt;T&gt; <a class=\`trait\` href=\`https://doc.rust-lang.org/nightly/core/marker/trait.Unpin.html\` title=\`trait core::marker::Unpin\`>Unpin</a> for <a class=\`struct\` href=\`actix_broker/struct.Broker.html\` title=\`struct actix_broker::Broker\`>Broker</a>&lt;T&gt;<span class=\`where fmt-newline\`>where\n    T: <a class=\`trait\` href=\`https://doc.rust-lang.org/nightly/core/marker/trait.Unpin.html\` title=\`trait core::marker::Unpin\`>Unpin</a>,</span>"
        1 ["actix_broker::broker::Broker"];
      rec3 "impl <a class=\`trait\` href=\`https://doc.rust-lang.org/nightly/core/marker/trait.Unpin.html\` title=\`trait core::marker::Unpin\`>Unpin</a> for <a class=\`struct\` href=\`actix_broker/struct.SystemBroker.html\` title=\`struct actix_broker::SystemBroker\`>SystemBroker</a>"
        1 ["actix_broker::broker::SystemBroker"];
      rec3 "impl <a class=\`trait\` href=\`https://doc.rust-lang.org/nightly/core/marker/trait.Unpin.html\` title=\`trait core::marker::Unpin\`>Unpin</a> for <a class=\`struct\` href=\`actix_broker/struct.ArbiterBroker.html\` title=\`struct actix_broker::ArbiterBroker\`>ArbiterBroker</a>"
        1 ["actix_broker::broker::ArbiterBroker"]])
  ].

(** ** The table *)

(** The typed table the literal denotes. *)
Definition implementors_table : table := default [] (decode_table implementors_lit).

(** The literal repeats no key at any depth, and has depth 4: the
    object, the array of a crate's records, a record, and a path array. *)
Lemma implementors_lit_wf :
  lit_nodup implementors_lit = true ∧ lit_depth implementors_lit = 4.
Proof. split; vm_compute; reflexivity. Qed.

(** Evidence for the first finding: 19 of the 51 records are singletons
    that carry neither the flag nor the path, and 32 are triples. *)
Lemma implementors_explicit_count :
  count_records is_explicit implementors_table = 19 ∧
  count_records (λ r, negb (is_explicit r)) implementors_table = 32.
Proof. split; vm_compute; reflexivity. Qed.

(** Evidence for the path finding: a triple has one path, a single
    string whose first segment is its crate and whose last segment is the
    type the markup implements [Unpin] for; a singleton's markup names its
    type too. *)
Lemma implementors_paths (c : string) (rs : list impl_record) (r : impl_record) :
  (c, rs) ∈ implementors_table → r ∈ rs → Markup.path_matches c r = true.
Proof.
  intros Hc Hr.
  assert (H : table_forall Markup.path_matches implementors_table = true) by (vm_compute; reflexivity).
  rewrite table_forall_spec in H. by apply (H c rs r).
Qed.
