(* ===== verification/UnpinSource.v ===== *)
(** * The source text of [trait.Unpin.js]

    The four lines of [src/implementors/core/marker/trait.Unpin.js], as
    text.  A Rocq string literal cannot hold a lone double quote, so each
    double quote of the file is written as a backquote (the file has
    none); [unquote] puts them back.  Lines 2 and 3 are cut before each
    record, and [String.concat] joins the pieces again.

    [parse_program] reads the file the way the engine does for this
    script: the text before the initialiser of [implementors], the
    initialiser (with [parse_value] of [JsParse]), and the text after it,
    which must be line 4's statement exactly, the one [Loader.unpin_fragment]
    models.

    [source_parses] checks that the text parses to [implementors_lit], the
    transcription [UnpinTable] gives: evidence that the literal the loader
    theorems are about is the file's. *)

From Stdlib Require Import String Ascii ZArith.
From stdpp Require Import base list option strings.
From S2P Require Import Prelude JsValue Literal JsParse ImplementorTable UnpinTable.

Local Open Scope string_scope.

(** The text with backquotes turned into double quotes. *)
Definition unquote (s : string) : list ascii :=
  map (λ c, if Ascii.eqb c "`"%char then dquote else c) (list_ascii_of_string s).

(** Line 1. *)
Definition src_line1 : string :=
  "(function() {var implementors = {".

(** Line 2. *)
Definition src_line2 : string :=
  String.concat EmptyString [
    "`actix`:[[`impl <a class=\`trait\` href=\`https://doc.rust-lang.org/nightly/core/marker/trait.Unpin.html\` title=\`trait core::marker::Unpin\`>Unpin</a> for <a class=\`enum\` href=\`actix/prelude/enum.ActorState.html\` title=\`enum actix::prelude::ActorState\`>ActorState</a>`,1,[`actix::actor::ActorState`]";
    "],[`impl <a class=\`trait\` href=\`https://doc.rust-lang.org/nightly/core/marker/trait.Unpin.html\` title=\`trait core::marker::Unpin\`>Unpin</a> for <a class=\`enum\` href=\`actix/prelude/enum.Running.html\` title=\`enum actix::prelude::Running\`>Running</a>`,1,[`actix::actor::Running`]";
    "],[`impl <a class=\`trait\` href=\`https://doc.rust-lang.org/nightly/core/marker/trait.Unpin.html\` title=\`trait core::marker::Unpin\`>Unpin</a> for <a class=\`struct\` href=\`actix/prelude/struct.SpawnHandle.html\` title=\`struct actix::prelude::SpawnHandle\`>SpawnHandle</a>`,1,[`actix::actor::SpawnHandle`]";
    "],[`impl&lt;A&gt; <a class=\`trait\` href=\`https://doc.rust-lang.org/nightly/core/marker/trait.Unpin.html\` title=\`trait core::marker::Unpin\`>Unpin</a> for <a class=\`struct\` href=\`actix/prelude/struct.Context.html\` title=\`struct actix::prelude::Context\`>Context</a>&lt;A&gt;`,1,[`actix::context::Context`]";
    "],[`impl&lt;A&gt; <a class=\`trait\` href=\`https://doc.rust-lang.org/nightly/core/marker/trait.Unpin.html\` title=\`trait core::marker::Unpin\`>Unpin</a> for <a class=\`struct\` href=\`actix/dev/struct.ContextParts.html\` title=\`struct actix::dev::ContextParts\`>ContextParts</a>&lt;A&gt;`,1,[`actix::contextimpl::ContextParts`]";
    "],[`impl&lt;A, C&gt; <a class=\`trait\` href=\`https://doc.rust-lang.org/nightly/core/marker/trait.Unpin.html\` title=\`trait core::marker::Unpin\`>Unpin</a> for <a class=\`struct\` href=\`actix/dev/struct.ContextFut.html\` title=\`struct actix::dev::ContextFut\`>ContextFut</a>&lt;A, C&gt;`,1,[`actix::contextimpl::ContextFut`]";
    "],[`impl&lt;M&gt; <a class=\`trait\` href=\`https://doc.rust-lang.org/nightly/core/marker/trait.Unpin.html\` title=\`trait core::marker::Unpin\`>Unpin</a> for <a class=\`struct\` href=\`actix/prelude/struct.MessageResult.html\` title=\`struct actix::prelude::MessageResult\`>MessageResult</a>&lt;M&gt;<span class=\`where fmt-newline\`>where\n    &lt;M as <a class=\`trait\` href=\`actix/prelude/trait.Message.html\` title=\`trait actix::prelude::Message\`>Message</a>&gt;::<a class=\`associatedtype\` href=\`actix/prelude/trait.Message.html#associatedtype.Result\` title=\`type actix::prelude::Message::Result\`>Result</a>: <a class=\`trait\` href=\`https://doc.rust-lang.org/nightly/core/marker/trait.Unpin.html\` title=\`trait core::marker::Unpin\`>Unpin</a>,</span>`,1,[`actix::handler::MessageResult`]";
    "],[`impl&lt;A, T&gt; <a class=\`trait\` href=\`https://doc.rust-lang.org/nightly/core/marker/trait.Unpin.html\` title=\`trait core::marker::Unpin\`>Unpin</a> for <a class=\`struct\` href=\`actix/prelude/struct.AtomicResponse.html\` title=\`struct actix::prelude::AtomicResponse\`>AtomicResponse</a>&lt;A, T&gt;`,1,[`actix::handler::AtomicResponse`]";
    "],[`impl&lt;I&gt; <a class=\`trait\` href=\`https://doc.rust-lang.org/nightly/core/marker/trait.Unpin.html\` title=\`trait core::marker::Unpin\`>Unpin</a> for <a class=\`struct\` href=\`actix/prelude/struct.Response.html\` title=\`struct actix::prelude::Response\`>Response</a>&lt;I&gt;<span class=\`where fmt-newline\`>where\n    I: <a class=\`trait\` href=\`https://doc.rust-lang.org/nightly/core/marker/trait.Unpin.html\` title=\`trait core::marker::Unpin\`>Unpin</a>,</span>`,1,[`actix::handler::Response`]";
    "],[`impl&lt;A, I&gt; <a class=\`trait\` href=\`https://doc.rust-lang.org/nightly/core/marker/trait.Unpin.html\` title=\`trait core::marker::Unpin\`>Unpin</a> for <a class=\`struct\` href=\`actix/prelude/struct.ActorResponse.html\` title=\`struct actix::prelude::ActorResponse\`>ActorResponse</a>&lt;A, I&gt;<span class=\`where fmt-newline\`>where\n    I: <a class=\`trait\` href=\`https://doc.rust-lang.org/nightly/core/marker/trait.Unpin.html\` title=\`trait core::marker::Unpin\`>Unpin</a>,</span>`,1,[`actix::handler::ActorResponse`]";
    "],[`impl&lt;A&gt; <a class=\`trait\` href=\`https://doc.rust-lang.org/nightly/core/marker/trait.Unpin.html\` title=\`trait core::marker::Unpin\`>Unpin</a> for <a class=\`struct\` href=\`actix/dev/channel/struct.AddressSender.html\` title=\`struct actix::dev::channel::AddressSender\`>AddressSender</a>&lt;A&gt;`,1,[`actix::address::channel::AddressSender`]";
    "],[`impl&lt;A&gt; <a class=\`trait\` href=\`https://doc.rust-lang.org/nightly/core/marker/trait.Unpin.html\` title=\`trait core::marker::Unpin\`>Unpin</a> for <a class=\`struct\` href=\`actix/dev/channel/struct.AddressReceiver.html\` title=\`struct actix::dev::channel::AddressReceiver\`>AddressReceiver</a>&lt;A&gt;`,1,[`actix::address::channel::AddressReceiver`]";
    "],[`impl&lt;A&gt; <a class=\`trait\` href=\`https://doc.rust-lang.org/nightly/core/marker/trait.Unpin.html\` title=\`trait core::marker::Unpin\`>Unpin</a> for <a class=\`struct\` href=\`actix/dev/struct.Envelope.html\` title=\`struct actix::dev::Envelope\`>Envelope</a>&lt;A&gt;`,1,[`actix::address::envelope::Envelope`]";
    "],[`impl&lt;T&gt; <a class=\`trait\` href=\`https://doc.rust-lang.org/nightly/core/marker/trait.Unpin.html\` title=\`trait core::marker::Unpin\`>Unpin</a> for <a class=\`enum\` href=\`actix/prelude/enum.SendError.html\` title=\`enum actix::prelude::SendError\`>SendError</a>&lt;T&gt;<span class=\`where fmt-newline\`>where\n    T: <a class=\`trait\` href=\`https://doc.rust-lang.org/nightly/core/marker/trait.Unpin.html\` title=\`trait core::marker::Unpin\`>Unpin</a>,</span>`,1,[`actix::address::SendError`]";
    "],[`impl <a class=\`trait\` href=\`https://doc.rust-lang.org/nightly/core/marker/trait.Unpin.html\` title=\`trait core::marker::Unpin\`>Unpin</a> for <a class=\`enum\` href=\`actix/prelude/enum.MailboxError.html\` title=\`enum actix::prelude::MailboxError\`>MailboxError</a>`,1,[`actix::address::MailboxError`]";
    "],[`impl&lt;A&gt; <a class=\`trait\` href=\`https://doc.rust-lang.org/nightly/core/marker/trait.Unpin.html\` title=\`trait core::marker::Unpin\`>Unpin</a> for <a class=\`struct\` href=\`actix/prelude/struct.Addr.html\` title=\`struct actix::prelude::Addr\`>Addr</a>&lt;A&gt;`,1,[`actix::address::Addr`]";
    "],[`impl&lt;A&gt; <a class=\`trait\` href=\`https://doc.rust-lang.org/nightly/core/marker/trait.Unpin.html\` title=\`trait core::marker::Unpin\`>Unpin</a> for <a class=\`struct\` href=\`actix/struct.WeakAddr.html\` title=\`struct actix::WeakAddr\`>WeakAddr</a>&lt;A&gt;`,1,[`actix::address::WeakAddr`]";
    "],[`impl&lt;M&gt; <a class=\`trait\` href=\`https://doc.rust-lang.org/nightly/core/marker/trait.Unpin.html\` title=\`trait core::marker::Unpin\`>Unpin</a> for <a class=\`struct\` href=\`actix/prelude/struct.Recipient.html\` title=\`struct actix::prelude::Recipient\`>Recipient</a>&lt;M&gt;`,1,[`actix::address::Recipient`]";
    "],[`impl&lt;M&gt; <a class=\`trait\` href=\`https://doc.rust-lang.org/nightly/core/marker/trait.Unpin.html\` title=\`trait core::marker::Unpin\`>Unpin</a> for <a class=\`struct\` href=\`actix/struct.WeakRecipient.html\` title=\`struct actix::WeakRecipient\`>WeakRecipient</a>&lt;M&gt;`,1,[`actix::address::WeakRecipient`]";
    "],[`impl&lt;A&gt; <a class=\`trait\` href=\`https://doc.rust-lang.org/nightly/core/marker/trait.Unpin.html\` title=\`trait core::marker::Unpin\`>Unpin</a> for <a class=\`struct\` href=\`actix/dev/struct.Mailbox.html\` title=\`struct actix::dev::Mailbox\`>Mailbox</a>&lt;A&gt;`,1,[`actix::mailbox::Mailbox`]";
    "],[`impl&lt;T&gt; <a class=\`trait\` href=\`https://doc.rust-lang.org/nightly/core/marker/trait.Unpin.html\` title=\`trait core::marker::Unpin\`>Unpin</a> for <a class=\`struct\` href=\`actix/actors/mocker/struct.Mocker.html\` title=\`struct actix::actors::mocker::Mocker\`>Mocker</a>&lt;T&gt;`,1,[`actix::actors::mocker::Mocker`]";
    "],[`impl&lt;T, E&gt; <a class=\`trait\` href=\`https://doc.rust-lang.org/nightly/core/marker/trait.Unpin.html\` title=\`trait core::marker::Unpin\`>Unpin</a> for <a class=\`struct\` href=\`actix/io/struct.Writer.html\` title=\`struct actix::io::Writer\`>Writer</a>&lt;T, E&gt;`,1,[`actix::io::Writer`]";
    "],[`impl&lt;I, T, U&gt; <a class=\`trait\` href=\`https://doc.rust-lang.org/nightly/core/marker/trait.Unpin.html\` title=\`trait core::marker::Unpin\`>Unpin</a> for <a class=\`struct\` href=\`actix/io/struct.FramedWrite.html\` title=\`struct actix::io::FramedWrite\`>FramedWrite</a>&lt;I, T, U&gt;<span class=\`where fmt-newline\`>where\n    U: <a class=\`trait\` href=\`https://doc.rust-lang.org/nightly/core/marker/trait.Unpin.html\` title=\`trait core::marker::Unpin\`>Unpin</a>,</span>`,1,[`actix::io::FramedWrite`]";
    "],[`impl&lt;I, S&gt; <a class=\`trait\` href=\`https://doc.rust-lang.org/nightly/core/marker/trait.Unpin.html\` title=\`trait core::marker::Unpin\`>Unpin</a> for <a class=\`struct\` href=\`actix/io/struct.SinkWrite.html\` title=\`struct actix::io::SinkWrite\`>SinkWrite</a>&lt;I, S&gt;`,1,[`actix::io::SinkWrite`]";
    "],[`impl <a class=\`trait\` href=\`https://doc.rust-lang.org/nightly/core/marker/trait.Unpin.html\` title=\`trait core::marker::Unpin\`>Unpin</a> for <a class=\`struct\` href=\`actix/registry/struct.Registry.html\` title=\`struct actix::registry::Registry\`>Registry</a>`,1,[`actix::registry::Registry`]";
    "],[`impl <a class=\`trait\` href=\`https://doc.rust-lang.org/nightly/core/marker/trait.Unpin.html\` title=\`trait core::marker::Unpin\`>Unpin</a> for <a class=\`struct\` href=\`actix/registry/struct.SystemRegistry.html\` title=\`struct actix::registry::SystemRegistry\`>SystemRegistry</a>`,1,[`actix::registry::SystemRegistry`]";
    "],[`impl&lt;A&gt; <a class=\`trait\` href=\`https://doc.rust-lang.org/nightly/core/marker/trait.Unpin.html\` title=\`trait core::marker::Unpin\`>Unpin</a> for <a class=\`struct\` href=\`actix/sync/struct.SyncArbiter.html\` title=\`struct actix::sync::SyncArbiter\`>SyncArbiter</a>&lt;A&gt;`,1,[`actix::sync::SyncArbiter`]";
    "],[`impl&lt;A&gt; <a class=\`trait\` href=\`https://doc.rust-lang.org/nightly/core/marker/trait.Unpin.html\` title=\`trait core::marker::Unpin\`>Unpin</a> for <a class=\`struct\` href=\`actix/sync/struct.SyncContext.html\` title=\`struct actix::sync::SyncContext\`>SyncContext</a>&lt;A&gt;`,1,[`actix::sync::SyncContext`]";
    "],[`impl&lt;T&gt; <a class=\`trait\` href=\`https://doc.rust-lang.org/nightly/core/marker/trait.Unpin.html\` title=\`trait core::marker::Unpin\`>Unpin</a> for <a class=\`struct\` href=\`actix/utils/struct.Condition.html\` title=\`struct actix::utils::Condition\`>Condition</a>&lt;T&gt;`,1,[`actix::utils::Condition`]";
    "],[`impl&lt;'__pin, Fut, F&gt; <a class=\`trait\` href=\`https://doc.rust-lang.org/nightly/core/marker/trait.Unpin.html\` title=\`trait core::marker::Unpin\`>Unpin</a> for <a class=\`enum\` href=\`actix/fut/try_future/enum.MapErr.html\` title=\`enum actix::fut::try_future::MapErr\`>MapErr</a>&lt;Fut, F&gt;<span class=\`where fmt-newline\`>where\n    __Origin&lt;'__pin, Fut, F&gt;: <a class=\`trait\` href=\`https://doc.rust-lang.org/nightly/core/marker/trait.Unpin.html\` title=\`trait core::marker::Unpin\`>Unpin</a>,</span>`";
    "],[`impl&lt;'__pin, S&gt; <a class=\`trait\` href=\`https://doc.rust-lang.org/nightly/core/marker/trait.Unpin.html\` title=\`trait core::marker::Unpin\`>Unpin</a> for <a class=\`struct\` href=\`actix/fut/stream/struct.Timeout.html\` title=\`struct actix::fut::stream::Timeout\`>Timeout</a>&lt;S&gt;<span class=\`where fmt-newline\`>where\n    __Origin&lt;'__pin, S&gt;: <a class=\`trait\` href=\`https://doc.rust-lang.org/nightly/core/marker/trait.Unpin.html\` title=\`trait core::marker::Unpin\`>Unpin</a>,</span>`";
    "],[`impl&lt;'__pin, S, F, Fut&gt; <a class=\`trait\` href=\`https://doc.rust-lang.org/nightly/core/marker/trait.Unpin.html\` title=\`trait core::marker::Unpin\`>Unpin</a> for <a class=\`struct\` href=\`actix/fut/stream/struct.Then.html\` title=\`struct actix::fut::stream::Then\`>Then</a>&lt;S, F, Fut&gt;<span class=\`where fmt-newline\`>where\n    __Origin&lt;'__pin, S, F, Fut&gt;: <a class=\`trait\` href=\`https://doc.rust-lang.org/nightly/core/marker/trait.Unpin.html\` title=\`trait core::marker::Unpin\`>Unpin</a>,</span>`";
    "],[`impl&lt;'__pin, Fut, F&gt; <a class=\`trait\` href=\`https://doc.rust-lang.org/nightly/core/marker/trait.Unpin.html\` title=\`trait core::marker::Unpin\`>Unpin</a> for <a class=\`enum\` href=\`actix/fut/future/enum.Map.html\` title=\`enum actix::fut::future::Map\`>Map</a>&lt;Fut, F&gt;<span class=\`where fmt-newline\`>where\n    __Origin&lt;'__pin, Fut, F&gt;: <a class=\`trait\` href=\`https://doc.rust-lang.org/nightly/core/marker/trait.Unpin.html\` title=\`trait core::marker::Unpin\`>Unpin</a>,</span>`";
    "],[`impl&lt;'__pin, F&gt; <a class=\`trait\` href=\`https://doc.rust-lang.org/nightly/core/marker/trait.Unpin.html\` title=\`trait core::marker::Unpin\`>Unpin</a> for <a class=\`struct\` href=\`actix/fut/future/struct.Timeout.html\` title=\`struct actix::fut::future::Timeout\`>Timeout</a>&lt;F&gt;<span class=\`where fmt-newline\`>where\n    __Origin&lt;'__pin, F&gt;: <a class=\`trait\` href=\`https://doc.rust-lang.org/nightly/core/marker/trait.Unpin.html\` title=\`trait core::marker::Unpin\`>Unpin</a>,</span>`";
    "],[`impl&lt;'__pin, S, F&gt; <a class=\`trait\` href=\`https://doc.rust-lang.org/nightly/core/marker/trait.Unpin.html\` title=\`trait core::marker::Unpin\`>Unpin</a> for <a class=\`struct\` href=\`actix/fut/stream/struct.Map.html\` title=\`struct actix::fut::stream::Map\`>Map</a>&lt;S, F&gt;<span class=\`where fmt-newline\`>where\n    __Origin&lt;'__pin, S, F&gt;: <a class=\`trait\` href=\`https://doc.rust-lang.org/nightly/core/marker/trait.Unpin.html\` title=\`trait core::marker::Unpin\`>Unpin</a>,</span>`";
    "],[`impl&lt;'__pin, Fut, F&gt; <a class=\`trait\` href=\`https://doc.rust-lang.org/nightly/core/marker/trait.Unpin.html\` title=\`trait core::marker::Unpin\`>Unpin</a> for <a class=\`enum\` href=\`actix/fut/try_future/enum.MapOk.html\` title=\`enum actix::fut::try_future::MapOk\`>MapOk</a>&lt;Fut, F&gt;<span class=\`where fmt-newline\`>where\n    __Origin&lt;'__pin, Fut, F&gt;: <a class=\`trait\` href=\`https://doc.rust-lang.org/nightly/core/marker/trait.Unpin.html\` title=\`trait core::marker::Unpin\`>Unpin</a>,</span>`";
    "],[`impl&lt;'__pin, F, A&gt; <a class=\`trait\` href=\`https://doc.rust-lang.org/nightly/core/marker/trait.Unpin.html\` title=\`trait core::marker::Unpin\`>Unpin</a> for <a class=\`struct\` href=\`actix/fut/future/struct.FutureWrap.html\` title=\`struct actix::fut::future::FutureWrap\`>FutureWrap</a>&lt;F, A&gt;<span class=\`where fmt-newline\`>where\n    __Origin&lt;'__pin, F, A&gt;: <a class=\`trait\` href=\`https://doc.rust-lang.org/nightly/core/marker/trait.Unpin.html\` title=\`trait core::marker::Unpin\`>Unpin</a>,\n    F: <a class=\`trait\` href=\`https://doc.rust-lang.org/nightly/core/future/future/trait.Future.html\` title=\`trait core::future::future::Future\`>Future</a>,\n    A: <a class=\`trait\` href=\`actix/prelude/trait.Actor.html\` title=\`trait actix::prelude::Actor\`>Actor</a>,</span>`";
    "],[`impl&lt;'__pin, S, C&gt; <a class=\`trait\` href=\`https://doc.rust-lang.org/nightly/core/marker/trait.Unpin.html\` title=\`trait core::marker::Unpin\`>Unpin</a> for <a class=\`struct\` href=\`actix/fut/stream/struct.Collect.html\` title=\`struct actix::fut::stream::Collect\`>Collect</a>&lt;S, C&gt;<span class=\`where fmt-newline\`>where\n    __Origin&lt;'__pin, S, C&gt;: <a class=\`trait\` href=\`https://doc.rust-lang.org/nightly/core/marker/trait.Unpin.html\` title=\`trait core::marker::Unpin\`>Unpin</a>,</span>`";
    "],[`impl&lt;'__pin, S, F, Fut, T&gt; <a class=\`trait\` href=\`https://doc.rust-lang.org/nightly/core/marker/trait.Unpin.html\` title=\`trait core::marker::Unpin\`>Unpin</a> for <a class=\`struct\` href=\`actix/fut/stream/struct.Fold.html\` title=\`struct actix::fut::stream::Fold\`>Fold</a>&lt;S, F, Fut, T&gt;<span class=\`where fmt-newline\`>where\n    __Origin&lt;'__pin, S, F, Fut, T&gt;: <a class=\`trait\` href=\`https://doc.rust-lang.org/nightly/core/marker/trait.Unpin.html\` title=\`trait core::marker::Unpin\`>Unpin</a>,</span>`";
    "],[`impl&lt;'__pin, S, A&gt; <a class=\`trait\` href=\`https://doc.rust-lang.org/nightly/core/marker/trait.Unpin.html\` title=\`trait core::marker::Unpin\`>Unpin</a> for <a class=\`struct\` href=\`actix/fut/stream/struct.StreamWrap.html\` title=\`struct actix::fut::stream::StreamWrap\`>StreamWrap</a>&lt;S, A&gt;<span class=\`where fmt-newline\`>where\n    __Origin&lt;'__pin, S, A&gt;: <a class=\`trait\` href=\`https://doc.rust-lang.org/nightly/core/marker/trait.Unpin.html\` title=\`trait core::marker::Unpin\`>Unpin</a>,\n    S: <a class=\`trait\` href=\`actix/prelude/trait.Stream.html\` title=\`trait actix::prelude::Stream\`>Stream</a>,\n    A: <a class=\`trait\` href=\`actix/prelude/trait.Actor.html\` title=\`trait actix::prelude::Actor\`>Actor</a>,</span>`";
    "],[`impl&lt;'__pin, A: <a class=\`trait\` href=\`actix/prelude/trait.Actor.html\` title=\`trait actix::prelude::Actor\`>Actor</a>&gt; <a class=\`trait\` href=\`https://doc.rust-lang.org/nightly/core/marker/trait.Unpin.html\` title=\`trait core::marker::Unpin\`>Unpin</a> for <a class=\`struct\` href=\`actix/utils/struct.IntervalFunc.html\` title=\`struct actix::utils::IntervalFunc\`>IntervalFunc</a>&lt;A&gt;<span class=\`where fmt-newline\`>where\n    __Origin&lt;'__pin, A&gt;: <a class=\`trait\` href=\`https://doc.rust-lang.org/nightly/core/marker/trait.Unpin.html\` title=\`trait core::marker::Unpin\`>Unpin</a>,</span>`";
    "],[`impl&lt;'__pin, A: <a class=\`trait\` href=\`actix/prelude/trait.Actor.html\` title=\`trait actix::prelude::Actor\`>Actor</a>&gt; <a class=\`trait\` href=\`https://doc.rust-lang.org/nightly/core/marker/trait.Unpin.html\` title=\`trait core::marker::Unpin\`>Unpin</a> for <a class=\`struct\` href=\`actix/utils/struct.TimerFunc.html\` title=\`struct actix::utils::TimerFunc\`>TimerFunc</a>&lt;A&gt;<span class=\`where fmt-newline\`>where\n    __Origin&lt;'__pin, A&gt;: <a class=\`trait\` href=\`https://doc.rust-lang.org/nightly/core/marker/trait.Unpin.html\` title=\`trait core::marker::Unpin\`>Unpin</a>,</span>`";
    "],[`impl&lt;'__pin, S, I, F, Fut&gt; <a class=\`trait\` href=\`https://doc.rust-lang.org/nightly/core/marker/trait.Unpin.html\` title=\`trait core::marker::Unpin\`>Unpin</a> for <a class=\`struct\` href=\`actix/fut/stream/struct.SkipWhile.html\` title=\`struct actix::fut::stream::SkipWhile\`>SkipWhile</a>&lt;S, I, F, Fut&gt;<span class=\`where fmt-newline\`>where\n    __Origin&lt;'__pin, S, I, F, Fut&gt;: <a class=\`trait\` href=\`https://doc.rust-lang.org/nightly/core/marker/trait.Unpin.html\` title=\`trait core::marker::Unpin\`>Unpin</a>,</span>`";
    "],[`impl&lt;'__pin, A&gt; <a class=\`trait\` href=\`https://doc.rust-lang.org/nightly/core/marker/trait.Unpin.html\` title=\`trait core::marker::Unpin\`>Unpin</a> for <a class=\`struct\` href=\`actix/prelude/struct.Supervisor.html\` title=\`struct actix::prelude::Supervisor\`>Supervisor</a>&lt;A&gt;<span class=\`where fmt-newline\`>where\n    __Origin&lt;'__pin, A&gt;: <a class=\`trait\` href=\`https://doc.rust-lang.org/nightly/core/marker/trait.Unpin.html\` title=\`trait core::marker::Unpin\`>Unpin</a>,\n    A: <a class=\`trait\` href=\`actix/prelude/trait.Supervised.html\` title=\`trait actix::prelude::Supervised\`>Supervised</a> + <a class=\`trait\` href=\`actix/prelude/trait.Actor.html\` title=\`trait actix::prelude::Actor\`>Actor</a>&lt;Context = <a class=\`struct\` href=\`actix/prelude/struct.Context.html\` title=\`struct actix::prelude::Context\`>Context</a>&lt;A&gt;&gt;,</span>`";
    "],[`impl&lt;'__pin, S&gt; <a class=\`trait\` href=\`https://doc.rust-lang.org/nightly/core/marker/trait.Unpin.html\` title=\`trait core::marker::Unpin\`>Unpin</a> for <a class=\`struct\` href=\`actix/fut/stream/struct.Finish.html\` title=\`struct actix::fut::stream::Finish\`>Finish</a>&lt;S&gt;<span class=\`where fmt-newline\`>where\n    __Origin&lt;'__pin, S&gt;: <a class=\`trait\` href=\`https://doc.rust-lang.org/nightly/core/marker/trait.Unpin.html\` title=\`trait core::marker::Unpin\`>Unpin</a>,</span>`";
    "],[`impl&lt;'__pin, A, B, F&gt; <a class=\`trait\` href=\`https://doc.rust-lang.org/nightly/core/marker/trait.Unpin.html\` title=\`trait core::marker::Unpin\`>Unpin</a> for <a class=\`enum\` href=\`actix/fut/future/enum.Then.html\` title=\`enum actix::fut::future::Then\`>Then</a>&lt;A, B, F&gt;<span class=\`where fmt-newline\`>where\n    __Origin&lt;'__pin, A, B, F&gt;: <a class=\`trait\` href=\`https://doc.rust-lang.org/nightly/core/marker/trait.Unpin.html\` title=\`trait core::marker::Unpin\`>Unpin</a>,</span>`";
    "],[`impl&lt;'__pin, A, B, F&gt; <a class=\`trait\` href=\`https://doc.rust-lang.org/nightly/core/marker/trait.Unpin.html\` title=\`trait core::marker::Unpin\`>Unpin</a> for <a class=\`enum\` href=\`actix/fut/try_future/enum.AndThen.html\` title=\`enum actix::fut::try_future::AndThen\`>AndThen</a>&lt;A, B, F&gt;<span class=\`where fmt-newline\`>where\n    __Origin&lt;'__pin, A, B, F&gt;: <a class=\`trait\` href=\`https://doc.rust-lang.org/nightly/core/marker/trait.Unpin.html\` title=\`trait core::marker::Unpin\`>Unpin</a>,</span>`";
    "],[`impl&lt;'__pin, S, I, F, Fut&gt; <a class=\`trait\` href=\`https://doc.rust-lang.org/nightly/core/marker/trait.Unpin.html\` title=\`trait core::marker::Unpin\`>Unpin</a> for <a class=\`struct\` href=\`actix/fut/stream/struct.TakeWhile.html\` title=\`struct actix::fut::stream::TakeWhile\`>TakeWhile</a>&lt;S, I, F, Fut&gt;<span class=\`where fmt-newline\`>where\n    __Origin&lt;'__pin, S, I, F, Fut&gt;: <a class=\`trait\` href=\`https://doc.rust-lang.org/nightly/core/marker/trait.Unpin.html\` title=\`trait core::marker::Unpin\`>Unpin</a>,</span>`]],"].

(** Line 3. *)
Definition src_line3 : string :=
  String.concat EmptyString [
    "`actix_broker`:[[`impl&lt;T&gt; <a class=\`trait\` href=\`https://doc.rust-lang.org/nightly/core/marker/trait.Unpin.html\` title=\`trait core::marker::Unpin\`>Unpin</a> for <a class=\`struct\` href=\`actix_broker/struct.Broker.html\` title=\`struct actix_broker::Broker\`>Broker</a>&lt;T&gt;<span class=\`where fmt-newline\`>where\n    T: <a class=\`trait\` href=\`https://doc.rust-lang.org/nightly/core/marker/trait.Unpin.html\` title=\`trait core::marker::Unpin\`>Unpin</a>,</span>`,1,[`actix_broker::broker::Broker`]";
    "],[`impl <a class=\`trait\` href=\`https://doc.rust-lang.org/nightly/core/marker/trait.Unpin.html\` title=\`trait core::marker::Unpin\`>Unpin</a> for <a class=\`struct\` href=\`actix_broker/struct.SystemBroker.html\` title=\`struct actix_broker::SystemBroker\`>SystemBroker</a>`,1,[`actix_broker::broker::SystemBroker`]";
    "],[`impl <a class=\`trait\` href=\`https://doc.rust-lang.org/nightly/core/marker/trait.Unpin.html\` title=\`trait core::marker::Unpin\`>Unpin</a> for <a class=\`struct\` href=\`actix_broker/struct.ArbiterBroker.html\` title=\`struct actix_broker::ArbiterBroker\`>ArbiterBroker</a>`,1,[`actix_broker::broker::ArbiterBroker`]]]"].

(** Line 4. *)
Definition src_line4 : string :=
  "};if (window.register_implementors) {window.register_implementors(implementors);} else {window.pending_implementors = implementors;}})()".

(** The whole file: the four lines, separated by line feeds. *)
Definition source_text : list ascii :=
  unquote src_line1 ++ [lf] ++ unquote src_line2 ++ [lf] ++ unquote src_line3 ++ [lf] ++ unquote src_line4.

(** ** The script around the literal *)

(** [p] is a prefix of [s]: the rest. *)
Fixpoint strip_prefix (p s : list ascii) : option (list ascii) :=
  match p, s with
  | [], _ => Some s
  | c :: p', d :: s' => if Ascii.eqb c d then strip_prefix p' s' else None
  | _ :: _, [] => None
  end.

(** The text before the initialiser, on line 1. *)
Definition program_prefix : list ascii := list_ascii_of_string "(function() {var implementors = ".

(** The text after it, on line 4: the dispatch and the end of the IIFE. *)
Definition program_suffix : list ascii :=
  list_ascii_of_string
    ";if (window.register_implementors) {window.register_implementors(implementors);} else {window.pending_implementors = implementors;}})()".

(** The initialiser of a script of this shape, or [None]. *)
Definition parse_program (s : list ascii) : option lit :=
  match strip_prefix program_prefix s with
  | Some r =>
      match parse_value (S (length r)) r with
      | POk e r' => if bool_decide (r' = program_suffix) then Some e else None
      | _ => None
      end
  | None => None
  end.

(** ** Theorems *)

(** The file parses as the script [Loader.unpin_fragment] models: the
    text before the initialiser, a literal that is exactly
    [implementors_lit], and line 4's statement. *)
Lemma source_parses : parse_program source_text = Some implementors_lit.
Proof. vm_compute. reflexivity. Qed.
