(* ===== verification/Loader.v ===== *)
(** * The fragment: line 4 of [trait.Unpin.js]

    [(function() {var implementors = {...};
       if (window.register_implementors) {window.register_implementors(implementors);}
       else {window.pending_implementors = implementors;}})()]

    The page state ([state]) holds the heap, the own properties of the
    global object [window], a log of the host calls made so far (the
    callee and its arguments, recorded at the moment of the call), and the
    tables the page has rendered, which only host functions write.  What a
    host function does is the typeclass [HostFunctions].  The fragment's
    theorems hold for every instance.

    [call] is EvaluateCall on a value: a value that is not callable raises
    a TypeError, and a function object runs its host behaviour.
    [iife_body] is the whole body of the IIFE for an initialiser of
    [var implementors], and [unpin_fragment] is that body for the table of
    the file.  It evaluates the literal, reads [window.register_implementors] and tests it with
    ToBoolean.  If truthy, it reads the property again and calls it with
    the table; otherwise it assigns the table to
    [window.pending_implementors].  The local [var implementors] is not a
    property of [window].

    Theorems: for each branch of the [if], what the fragment does: the
    pending slot written with a fresh table that reads back as the literal;
    the hook called exactly once with that table; a TypeError for a truthy
    hook that is not a function; an exception of the hook propagated
    unchanged.  A second run overwrites the slot with a second table.  It
    refines the contract of spec §4.1: the
    abstraction [abs] maps a page to what the spec observes (the table in
    the pending slot and the tables passed to each call), [spec_dispatch]
    chooses between invoking and storing, and [spec_step] is the effect of
    either on the observables.  The proofs go through three equations of
    the body, one per branch ([fragment_store_eq], [fragment_invoke_eq],
    [fragment_error_eq]). *)

From Stdlib Require Import String ZArith.
From stdpp Require Import base list option gmap strings.
From S2P Require Import Prelude JsValue Literal ImplementorTable UnpinTable.

Local Open Scope string_scope.

(** ** The page state *)

Record state := mk_state {
  st_heap : heap;
  st_window : gmap string val;
  st_calls : list (val * list val);
  st_dom : list val
}.

Definition with_heap (h : heap) (s : state) : state :=
  mk_state h (st_window s) (st_calls s) (st_dom s).

(** [window.k]: an absent property reads as [undefined]. *)
Definition window_get (k : string) (s : state) : val :=
  default VUndefined (st_window s !! k).

(** [window.k = v]. *)
Definition window_set (k : string) (v : val) (s : state) : state :=
  mk_state (st_heap s) (<[k := v]> (st_window s)) (st_calls s) (st_dom s).

Definition log_call (f : val) (args : list val) (s : state) : state :=
  mk_state (st_heap s) (st_window s) (st_calls s ++ [(f, args)])%list (st_dom s).

(** Errors a script can raise. *)
Inductive exn :=
  | TypeError (msg : string)
  | Thrown (v : val).

(** The completion of a script: normal, or an uncaught exception. *)
Inductive outcome :=
  | Normal (s : state)
  | Throw (x : exn) (s : state).

(** The behaviour of the host's function objects. *)
Class HostFunctions := { host_call : nat → list val → state → outcome }.

(** The names the fragment uses. *)
Definition register_key : string := "register_implementors".
Definition pending_key : string := "pending_implementors".

Section Fragment.
Context `{HostFunctions}.

(** EvaluateCall: the callee must be callable; the call is logged and
    runs the host behaviour. *)
Definition call (f : val) (args : list val) (s : state) : outcome :=
  match callable (st_heap s) f with
  | Some fid => host_call fid args (log_call f args s)
  | None => Throw (TypeError "window.register_implementors is not a function") s
  end.

(** The body of the IIFE, for the initialiser [e] of [var implementors]:
    evaluate it, then call the hook with it or store it. *)
Definition iife_body (e : lit) (s : state) : outcome :=
  let '(tbl, h) := eval_lit e (st_heap s) in
  let s1 := with_heap h s in
  if truthy (window_get register_key s1)
  then call (window_get register_key s1) [tbl] s1
  else Normal (window_set pending_key tbl s1).

(** The IIFE of [trait.Unpin.js], whose initialiser is the table. *)
Definition unpin_fragment (s : state) : outcome := iife_body implementors_lit s.
End Fragment.

(** ** The state invariant *)

(** The heap is closed, and every reference the page holds (in [window],
    in the call log, in the rendered tables) is allocated. *)
Definition state_ok (s : state) : Prop :=
  heap_ok (st_heap s) ∧
  map_Forall (λ _ v, val_below (next (st_heap s)) v) (st_window s) ∧
  Forall (λ fa, Forall (val_below (next (st_heap s))) (fa.1 :: fa.2)) (st_calls s) ∧
  Forall (val_below (next (st_heap s))) (st_dom s).

Lemma window_get_below (s : state) (k : string) :
  state_ok s → val_below (next (st_heap s)) (window_get k s).
Proof.
  intros (_ & Hw & _). unfold window_get. destruct (st_window s !! k) as [v|] eqn:E; simpl; [|done].
  by apply (Hw k v).
Qed.

Lemma state_ok_with_heap (s : state) (h : heap) :
  state_ok s → heap_ok h → (next (st_heap s) ≤ next h)%positive → state_ok (with_heap h s).
Proof.
  intros (_ & Hw & Hc & Hd) Hh Hle. split_and!; simpl; [done | | |].
  - intros k v Hk. eapply val_below_mono; [done|]. by apply (Hw k).
  - eapply Forall_impl; [done|]. intros fa. by apply Forall_val_below_mono.
  - by eapply Forall_val_below_mono.
Qed.

Lemma state_ok_window_set (s : state) (k : string) (v : val) :
  state_ok s → val_below (next (st_heap s)) v → state_ok (window_set k v s).
Proof.
  intros (Hh & Hw & Hc & Hd) Hv. split_and!; simpl; [done | | done | done].
  by apply map_Forall_insert_2.
Qed.

Lemma state_ok_log_call (s : state) (f : val) (args : list val) :
  state_ok s → val_below (next (st_heap s)) f → Forall (val_below (next (st_heap s))) args →
  state_ok (log_call f args s).
Proof.
  intros (Hh & Hw & Hc & Hd) Hf Hargs. split_and!; simpl; [done | done | | done].
  apply Forall_app. split; [done|]. repeat constructor; done.
Qed.

Lemma window_get_set_eq (k : string) (v : val) (s : state) :
  window_get k (window_set k v s) = v.
Proof. unfold window_get, window_set; simpl. by rewrite lookup_insert_eq. Qed.

Lemma window_get_set_ne (k k' : string) (v : val) (s : state) :
  k' ≠ k → window_get k' (window_set k v s) = window_get k' s.
Proof. intros Hne. unfold window_get, window_set; simpl. by rewrite lookup_insert_ne. Qed.

Lemma window_get_log_call (k : string) (f : val) (args : list val) (s : state) :
  window_get k (log_call f args s) = window_get k s.
Proof. reflexivity. Qed.

Lemma window_get_with_heap (k : string) (h : heap) (s : state) :
  window_get k (with_heap h s) = window_get k s.
Proof. reflexivity. Qed.

(** ** Evaluating the table *)

Lemma implementors_lit_obj : ∃ ps, implementors_lit = LObj ps.
Proof. eexists. reflexivity. Qed.

Lemma eval_obj_value (ps : list (string * lit)) (h : heap) :
  (eval_lit (LObj ps) h).1 = VRef (next h).
Proof. done. Qed.

(** Line 1 to 3 run: a fresh object at [next h] that reads back as the
    literal, in a closed heap that extends the old one. *)
Lemma eval_implementors (h : heap) (v : val) (h' : heap) :
  heap_ok h → eval_lit implementors_lit h = (v, h') →
  v = VRef (next h) ∧ extends h h' ∧ (next h < next h')%positive ∧ heap_ok h' ∧
  read_lit 4 h' v = Some implementors_lit.
Proof.
  intros Hok E. destruct (eval_lit_closed _ h v h' Hok E) as (Hok' & Hv & _).
  assert (Hval : v = VRef (next h)).
  { destruct implementors_lit_obj as [ps Hps]. rewrite Hps in E.
    pose proof (eval_obj_value ps h) as Hv'. by rewrite E in Hv'. }
  destruct (eval_lit_ok _ h v h' E) as [Hext Hden].
  subst v. split_and!; [done | exact Hext | done | done |].
  rewrite <-(lit_norm_id implementors_lit) at 1 by apply implementors_lit_wf.
  apply (read_lit_mono (lit_depth implementors_lit)); [apply Hden; by intros l _ _ |].
  by rewrite (proj2 implementors_lit_wf).
Qed.

Lemma callable_extends (h h' : heap) (f : val) :
  extends h h' → val_below (next h) f → callable h' f = callable h f.
Proof. intros [_ Hext] Hf. destruct f; simpl in *; try done. by rewrite Hext. Qed.

Lemma callable_truthy (h : heap) (f : val) (fid : nat) :
  callable h f = Some fid → truthy f = true.
Proof. by destruct f. Qed.

(** ** Pages used as concrete inputs *)

(** The spec's test hook (§8): a recorder that keeps its arguments. *)
#[local] Instance recorder_host : HostFunctions := {
  host_call _ args s := Normal (mk_state (st_heap s) (st_window s) (st_calls s) (st_dom s ++ args)%list)
}.

(** A fresh page, a page whose hook is the function object at location 1,
    and a page whose hook is a non-empty string. *)
Definition init_page : state := mk_state heap_empty ∅ [] [].

Definition hooked_page : state :=
  mk_state (mk_heap 2%positive {[1%positive := CFun 0]}) {[register_key := VRef 1%positive]} [] [].

Definition bogus_page : state :=
  mk_state heap_empty {[register_key := VStr "yes"]} [] [].

Lemma init_page_ok : state_ok init_page.
Proof.
  split_and!; [| apply map_Forall_empty | constructor | constructor].
  intros l c. unfold load. simpl. by rewrite lookup_empty.
Qed.

Lemma hooked_page_ok : state_ok hooked_page.
Proof.
  split_and!; [| | constructor | constructor].
  - intros l c. unfold load. simpl. rewrite lookup_singleton.
    case_decide; [intros [= <-]; subst; simpl; split; [lia | constructor] | done].
  - apply map_Forall_singleton. simpl. lia.
Qed.

Lemma bogus_page_ok : state_ok bogus_page.
Proof.
  split_and!; [| | constructor | constructor].
  - intros l c. unfold load. simpl. by rewrite lookup_empty.
  - by apply map_Forall_singleton.
Qed.

(** ** The three branches of line 4 *)

Section Branches.
Context `{HostFunctions}.

(** What the body does once the literal is evaluated: the table is the
    fresh object at the old allocation pointer. *)
Lemma unpin_fragment_unfold (s : state) :
  state_ok s →
  ∃ h', extends (st_heap s) h' ∧ (next (st_heap s) < next h')%positive ∧ heap_ok h' ∧
    read_lit 4 h' (VRef (next (st_heap s))) = Some implementors_lit ∧
    unpin_fragment s =
      if truthy (window_get register_key s)
      then call (window_get register_key s) [VRef (next (st_heap s))] (with_heap h' s)
      else Normal (window_set pending_key (VRef (next (st_heap s))) (with_heap h' s)).
Proof.
  intros Hok. unfold unpin_fragment, iife_body.
  destruct (eval_lit implementors_lit (st_heap s)) as [v h'] eqn:E.
  destruct (eval_implementors _ _ _ (proj1 Hok) E) as (-> & Hext & Hlt & Hok' & Hrd).
  clear E. exists h'. split_and!; [exact Hext | exact Hlt | exact Hok' | exact Hrd | reflexivity].
Qed.

(** The same for any initialiser: the value read back with fuel the depth
    of the literal is the literal with JavaScript's duplicate-key rule. *)
Lemma iife_body_unfold (e : lit) (s : state) :
  state_ok s →
  ∃ v h', extends (st_heap s) h' ∧ heap_ok h' ∧ val_below (next h') v ∧
    read_lit (lit_depth e) h' v = Some (lit_norm e) ∧
    iife_body e s =
      if truthy (window_get register_key s)
      then call (window_get register_key s) [v] (with_heap h' s)
      else Normal (window_set pending_key v (with_heap h' s)).
Proof.
  intros Hok. unfold iife_body. destruct (eval_lit e (st_heap s)) as [v h'] eqn:E.
  destruct (eval_lit_closed e _ v h' (proj1 Hok) E) as (Hok' & Hv & _).
  destruct (eval_lit_ok e _ v h' E) as [Hext Hden].
  exists v, h'. split_and!; [done | done | done | apply Hden; by intros l _ _ | reflexivity].
Qed.

(** The call of a callable hook, after the evaluation. *)
Lemma call_hook_eq (s : state) (h' : heap) (fid : nat) (args : list val) :
  state_ok s → extends (st_heap s) h' →
  callable (st_heap s) (window_get register_key s) = Some fid →
  call (window_get register_key s) args (with_heap h' s) =
    host_call fid args (log_call (window_get register_key s) args (with_heap h' s)).
Proof.
  intros Hok Hext Hc. unfold call. change (st_heap (with_heap h' s)) with h'.
  rewrite (callable_extends (st_heap s) h') by (done || by apply window_get_below).
  by rewrite Hc.
Qed.

(** The three results of the body, as equations. *)
Lemma fragment_store_eq (s : state) :
  state_ok s → truthy (window_get register_key s) = false →
  ∃ h', extends (st_heap s) h' ∧ (next (st_heap s) < next h')%positive ∧ heap_ok h' ∧
    read_lit 4 h' (VRef (next (st_heap s))) = Some implementors_lit ∧
    unpin_fragment s = Normal (window_set pending_key (VRef (next (st_heap s))) (with_heap h' s)).
Proof.
  intros Hok Hf. destruct (unpin_fragment_unfold s Hok) as (h' & Hext & Hlt & Hok' & Hrd & ->).
  rewrite Hf. by exists h'.
Qed.

Lemma fragment_invoke_eq (s : state) (fid : nat) :
  state_ok s → callable (st_heap s) (window_get register_key s) = Some fid →
  ∃ h', extends (st_heap s) h' ∧ (next (st_heap s) < next h')%positive ∧ heap_ok h' ∧
    read_lit 4 h' (VRef (next (st_heap s))) = Some implementors_lit ∧
    unpin_fragment s = host_call fid [VRef (next (st_heap s))]
      (log_call (window_get register_key s) [VRef (next (st_heap s))] (with_heap h' s)).
Proof.
  intros Hok Hc. destruct (unpin_fragment_unfold s Hok) as (h' & Hext & Hlt & Hok' & Hrd & ->).
  rewrite (callable_truthy _ _ _ Hc), (call_hook_eq s h' fid) by done. by exists h'.
Qed.

Lemma fragment_error_eq (s : state) :
  state_ok s → truthy (window_get register_key s) = true →
  callable (st_heap s) (window_get register_key s) = None →
  ∃ h', extends (st_heap s) h' ∧ (next (st_heap s) < next h')%positive ∧ heap_ok h' ∧
    unpin_fragment s = Throw (TypeError "window.register_implementors is not a function") (with_heap h' s).
Proof.
  intros Hok Ht Hc. destruct (unpin_fragment_unfold s Hok) as (h' & Hext & Hlt & Hok' & Hrd & ->).
  rewrite Ht. unfold call. change (st_heap (with_heap h' s)) with h'.
  rewrite (callable_extends (st_heap s) h') by (done || by apply window_get_below).
  rewrite Hc. by exists h'.
Qed.

(** The states the body leaves are well formed. *)
Lemma store_state_ok (s : state) (h' : heap) :
  state_ok s → heap_ok h' → (next (st_heap s) < next h')%positive →
  state_ok (window_set pending_key (VRef (next (st_heap s))) (with_heap h' s)).
Proof.
  intros Hok Hok' Hlt.
  apply state_ok_window_set; [apply state_ok_with_heap; [done | done | lia] | simpl; lia].
Qed.

Lemma invoke_state_ok (s : state) (h' : heap) :
  state_ok s → heap_ok h' → (next (st_heap s) < next h')%positive →
  state_ok (log_call (window_get register_key s) [VRef (next (st_heap s))] (with_heap h' s)).
Proof.
  intros Hok Hok' Hlt. apply state_ok_log_call; simpl.
  - apply state_ok_with_heap; [done | done | lia].
  - eapply val_below_mono; [|by apply window_get_below]. lia.
  - repeat constructor. simpl. lia.
Qed.

(** C2. Hook absent (any falsy value): the fragment completes normally,
    [window.pending_implementors] holds a fresh object that reads back as
    the table literal, every other property of [window] is unchanged, no
    host function is called, and the heap only grows. *)
Theorem unpin_fragment_pending (s : state) :
  state_ok s → truthy (window_get register_key s) = false →
  ∃ s', unpin_fragment s = Normal s' ∧
    window_get pending_key s' = VRef (next (st_heap s)) ∧
    read_lit 4 (st_heap s') (window_get pending_key s') = Some implementors_lit ∧
    (∀ k, k ≠ pending_key → window_get k s' = window_get k s) ∧
    st_calls s' = st_calls s ∧ st_dom s' = st_dom s ∧
    extends (st_heap s) (st_heap s') ∧ state_ok s'.
Proof.
  intros Hok Hf. destruct (fragment_store_eq s Hok Hf) as (h' & Hext & Hlt & Hok' & Hrd & ->).
  eexists. split; [reflexivity|]. rewrite window_get_set_eq.
  split_and!; [reflexivity | exact Hrd | | reflexivity | reflexivity | exact Hext |].
  - intros k Hk. rewrite window_get_set_ne; [reflexivity | done].
  - by apply store_state_ok.
Qed.


(** C1. Hook present and callable: the fragment calls it exactly once,
    with one argument, the fresh table, which reads back as the literal;
    [window] (and so the pending slot) is untouched before the call, and
    the outcome is the hook's own, so an exception of the hook propagates
    unchanged. *)
Theorem unpin_fragment_calls_hook (s : state) (fid : nat) :
  state_ok s → callable (st_heap s) (window_get register_key s) = Some fid →
  ∃ s1, unpin_fragment s = host_call fid [VRef (next (st_heap s))] s1 ∧
    st_calls s1 = (st_calls s ++ [(window_get register_key s, [VRef (next (st_heap s))])])%list ∧
    st_window s1 = st_window s ∧ st_dom s1 = st_dom s ∧
    read_lit 4 (st_heap s1) (VRef (next (st_heap s))) = Some implementors_lit ∧
    extends (st_heap s) (st_heap s1) ∧ state_ok s1.
Proof.
  intros Hok Hc. destruct (fragment_invoke_eq s fid Hok Hc) as (h' & Hext & Hlt & Hok' & Hrd & ->).
  eexists. split; [reflexivity|].
  split_and!; [reflexivity | reflexivity | reflexivity | exact Hrd | exact Hext |].
  by apply invoke_state_ok.
Qed.


(** C3. Hook truthy but not a function (the code tests truthiness, not
    definedness): the fragment throws a TypeError; the table is neither
    stored in the pending slot nor passed to anyone. *)
Theorem unpin_fragment_type_error (s : state) :
  state_ok s → truthy (window_get register_key s) = true →
  callable (st_heap s) (window_get register_key s) = None →
  ∃ s1, unpin_fragment s = Throw (TypeError "window.register_implementors is not a function") s1 ∧
    st_window s1 = st_window s ∧ st_calls s1 = st_calls s ∧ state_ok s1.
Proof.
  intros Hok Ht Hc. destruct (fragment_error_eq s Hok Ht Hc) as (h' & Hext & Hlt & Hok' & ->).
  eexists. split_and!; [reflexivity | reflexivity | reflexivity |].
  apply state_ok_with_heap; [done | done | lia].
Qed.


(** C7. Run twice with no hook, the fragment builds two distinct tables
    and the pending slot holds the second (last write wins, no
    accumulation); the first table is still intact in the heap. *)
Theorem unpin_fragment_twice (s : state) :
  state_ok s → truthy (window_get register_key s) = false →
  ∃ s1 s2, unpin_fragment s = Normal s1 ∧ unpin_fragment s1 = Normal s2 ∧
    window_get pending_key s1 = VRef (next (st_heap s)) ∧
    window_get pending_key s2 = VRef (next (st_heap s1)) ∧
    next (st_heap s) ≠ next (st_heap s1) ∧
    read_lit 4 (st_heap s2) (window_get pending_key s2) = Some implementors_lit ∧
    read_lit 4 (st_heap s2) (window_get pending_key s1) = Some implementors_lit.
Proof.
  intros Hok Hf. destruct (fragment_store_eq s Hok Hf) as (h1 & Hext1 & Hlt1 & Hok1 & Hrd1 & E1).
  set (s1 := window_set pending_key (VRef (next (st_heap s))) (with_heap h1 s)) in E1.
  assert (Hs1 : state_ok s1) by (by apply store_state_ok).
  assert (Hp1 : window_get pending_key s1 = VRef (next (st_heap s))) by apply window_get_set_eq.
  assert (Hf1 : truthy (window_get register_key s1) = false).
  { unfold s1. rewrite window_get_set_ne by discriminate. exact Hf. }
  assert (Hh1 : st_heap s1 = h1) by reflexivity. clearbody s1.
  destruct (fragment_store_eq s1 Hs1 Hf1) as (h2 & Hext2 & Hlt2 & Hok2 & Hrd2 & E2).
  exists s1, (window_set pending_key (VRef (next (st_heap s1))) (with_heap h2 s1)).
  rewrite Hp1, window_get_set_eq. rewrite Hh1 in Hext2, Hlt2, Hrd2, E2 |- *.
  split_and!; [exact E1 | exact E2 | reflexivity | reflexivity | lia | exact Hrd2 |].
  change (st_heap (window_set pending_key (VRef (next h1)) (with_heap h2 s1))) with h2.
  rewrite (read_lit_extends 4 h1 h2); [exact Hrd1 | exact Hok1 | exact Hext2 | simpl; lia].
Qed.

End Branches.

(** Witnesses at the pages above, with the recorder hook. *)

Lemma unpin_fragment_pending_witness :
  state_ok init_page ∧ ∃ s', unpin_fragment init_page = Normal s' ∧
    read_lit 4 (st_heap s') (window_get pending_key s') = Some implementors_lit.
Proof.
  split; [apply init_page_ok|].
  destruct (unpin_fragment_pending init_page init_page_ok eq_refl) as (s' & E & _ & Hr & _).
  exists s'. split; [exact E | exact Hr].
Defined.

Lemma unpin_fragment_calls_hook_witness :
  ∃ s1, unpin_fragment hooked_page = host_call 0 [VRef 2%positive] s1 ∧
    st_calls s1 = [(VRef 1%positive, [VRef 2%positive])].
Proof.
  destruct (unpin_fragment_calls_hook hooked_page 0 hooked_page_ok eq_refl)
    as (s1 & E & Hc & _). exists s1. split; [exact E | exact Hc].
Defined.

Lemma unpin_fragment_type_error_witness :
  ∃ s1, unpin_fragment bogus_page =
    Throw (TypeError "window.register_implementors is not a function") s1 ∧
    st_window s1 = st_window bogus_page.
Proof.
  destruct (unpin_fragment_type_error bogus_page bogus_page_ok eq_refl eq_refl) as (s1 & E & Hw & _).
  exists s1. split; [exact E | exact Hw].
Defined.

Lemma unpin_fragment_twice_witness :
  ∃ s1 s2, unpin_fragment init_page = Normal s1 ∧ unpin_fragment s1 = Normal s2 ∧
    window_get pending_key s2 ≠ window_get pending_key s1.
Proof.
  destruct (unpin_fragment_twice init_page init_page_ok eq_refl)
    as (s1 & s2 & E1 & E2 & Hp1 & Hp2 & Hne & _). exists s1, s2. split_and!; [exact E1 | exact E2 |].
  clear E1 E2. rewrite Hp1, Hp2. intros [= Heq]. apply Hne. symmetry. exact Heq.
Defined.

(** ** The contract of the spec, and refinement *)

(** What the spec (§3, §4.1) observes of a page: the table in the pending
    slot, and the tables passed to each host call so far. *)
Record abs_state := mk_abs {
  a_pending : option lit;
  a_calls : list (val * list (option lit))
}.

Definition abs (s : state) : abs_state :=
  mk_abs (read_lit 4 (st_heap s) (window_get pending_key s))
         (map (λ fa, (fa.1, map (read_lit 4 (st_heap s)) fa.2)) (st_calls s)).

(** §4.1: exactly one of two things happens, chosen by the hook alone. *)
Inductive dispatch := Invoke (hook : val) | Store.

Definition spec_dispatch (hook : val) : dispatch :=
  if truthy hook then Invoke hook else Store.

Definition spec_step (d : dispatch) (a : abs_state) : abs_state :=
  match d with
  | Invoke f => mk_abs (a_pending a) (a_calls a ++ [(f, [Some implementors_lit])])
  | Store => mk_abs (Some implementors_lit) (a_calls a)
  end.

(** Extending a closed heap changes nothing the spec observes. *)
Lemma abs_with_heap (s : state) (h' : heap) :
  state_ok s → extends (st_heap s) h' → abs (with_heap h' s) = abs s.
Proof.
  intros Hok Hext. pose proof Hok as (Hh & Hw & Hc & Hd). unfold abs; simpl. f_equal.
  - apply (read_lit_extends 4 (st_heap s) h'); [done | done |]. exact (window_get_below s pending_key Hok).
  - apply map_ext_in. intros [f args] Hfa. simpl. f_equal. apply map_ext_in. intros a Ha.
    apply (read_lit_extends 4 (st_heap s) h'); [done | done |].
    rewrite Forall_forall in Hc. apply list_elem_of_In in Hfa. specialize (Hc _ Hfa).
    rewrite Forall_forall in Hc. apply Hc. simpl. right. by apply list_elem_of_In.
Qed.

Lemma abs_log_call (f : val) (args : list val) (s : state) :
  abs (log_call f args s) =
    mk_abs (a_pending (abs s)) (a_calls (abs s) ++ [(f, map (read_lit 4 (st_heap s)) args)]).
Proof. unfold abs, log_call. cbn [st_heap st_calls a_pending a_calls]. by rewrite map_app. Qed.

Lemma abs_window_set_pending (v : val) (s : state) :
  abs (window_set pending_key v s) = mk_abs (read_lit 4 (st_heap s) v) (a_calls (abs s)).
Proof. unfold abs. rewrite window_get_set_eq. reflexivity. Qed.

Section Refinement.
Context `{HostFunctions}.

(** C4. Refinement: on a well-formed page whose hook is falsy or
    callable, the fragment does what the contract of §4.1 says, seen
    through [abs]: it stores the table, or it invokes the hook once with
    the table, and nothing else the spec observes changes.  In the invoke
    case the state is the one the hook is called in. *)
Theorem unpin_fragment_refines (s : state) :
  state_ok s →
  (truthy (window_get register_key s) = true →
     ∃ fid, callable (st_heap s) (window_get register_key s) = Some fid) →
  match spec_dispatch (window_get register_key s) with
  | Invoke f => ∃ fid s1, unpin_fragment s = host_call fid [VRef (next (st_heap s))] s1 ∧
                  abs s1 = spec_step (Invoke f) (abs s)
  | Store => ∃ s', unpin_fragment s = Normal s' ∧ abs s' = spec_step Store (abs s)
  end.
Proof.
  intros Hok Hcall. destruct (unpin_fragment_unfold s Hok) as (h' & Hext & Hlt & Hok' & Hrd & ->).
  rewrite <-(abs_with_heap s h' Hok Hext). unfold spec_dispatch.
  destruct (truthy (window_get register_key s)) eqn:Ht.
  - destruct (Hcall eq_refl) as [fid Hc]. rewrite (call_hook_eq s h' fid) by done.
    eexists fid, _. split; [reflexivity|]. rewrite abs_log_call.
    cbn [map st_heap with_heap spec_step]. by rewrite Hrd.
  - eexists. split; [reflexivity|]. rewrite abs_window_set_pending.
    cbn [st_heap with_heap spec_step]. by rewrite Hrd.
Qed.
End Refinement.

Lemma unpin_fragment_refines_witness :
  ∃ s', unpin_fragment init_page = Normal s' ∧ abs s' = spec_step Store (abs init_page).
Proof. apply (unpin_fragment_refines init_page init_page_ok). discriminate. Defined.
