(* ===== verification/Script.v ===== *)
(** * The file, run from its text

    This file composes the parts: [UnpinSource.parse_program] reads the
    text of a script of the shape of [trait.Unpin.js], and
    [Loader.iife_body] runs the IIFE on the initialiser it finds.
    [exec_script] is the two in sequence: the script's effect on the page,
    or [None] when the text does not have that shape (an early
    SyntaxError, before anything runs).

    Theorems: for every text of this shape (the implementors file of any
    trait), the table the script hands over, stored or passed to the hook,
    reads back as the literal the text parses to.  Run on the file's own
    text ([UnpinSource.source_parses]), [exec_script] is [unpin_fragment]. *)

From Stdlib Require Import String Ascii ZArith.
From stdpp Require Import base list option gmap strings.
From S2P Require Import Prelude JsValue Literal JsParse ImplementorTable UnpinTable UnpinSource Loader.

(** ** Running a script from its text *)

Section Exec.
Context `{HostFunctions}.

Definition exec_script (src : list ascii) (s : state) : option outcome :=
  match parse_program src with
  | Some e => Some (iife_body e s)
  | None => None
  end.

(** ** Theorems *)

(** C8. Any script of this shape, with no hook: it completes normally, the
    pending slot holds a value that reads back as the literal the text
    parses to (when that literal repeats no key), no host function is
    called, and the page stays well formed. *)
Theorem exec_script_stores (src : list ascii) (e : lit) (s : state) :
  parse_program src = Some e → lit_nodup e = true → state_ok s →
  truthy (window_get register_key s) = false →
  ∃ s', exec_script src s = Some (Normal s') ∧
    read_lit (lit_depth e) (st_heap s') (window_get pending_key s') = Some e ∧
    st_calls s' = st_calls s ∧ state_ok s'.
Proof.
  intros Hp Hnd Hok Hf. destruct (iife_body_unfold e s Hok) as (v & h' & Hext & Hok' & Hv & Hrd & Hb).
  rewrite Hf in Hb. eexists. unfold exec_script. rewrite Hp, Hb.
  split_and!; [reflexivity | | reflexivity |].
  - rewrite window_get_set_eq. change (st_heap (window_set pending_key v (with_heap h' s))) with h'.
    by rewrite Hrd, lit_norm_id.
  - apply state_ok_window_set; [apply state_ok_with_heap; [done | done | apply Hext] | exact Hv].
Qed.

(** C9. Any script of this shape, with a callable hook: the hook is
    called once, with one argument that reads back as the literal the text
    parses to, and [window] is unchanged when it is called. *)
Theorem exec_script_invokes (src : list ascii) (e : lit) (s : state) (fid : nat) :
  parse_program src = Some e → lit_nodup e = true → state_ok s →
  callable (st_heap s) (window_get register_key s) = Some fid →
  ∃ v s1, exec_script src s = Some (host_call fid [v] s1) ∧
    st_calls s1 = (st_calls s ++ [(window_get register_key s, [v])])%list ∧
    st_window s1 = st_window s ∧
    read_lit (lit_depth e) (st_heap s1) v = Some e.
Proof.
  intros Hp Hnd Hok Hc. destruct (iife_body_unfold e s Hok) as (v & h' & Hext & Hok' & Hv & Hrd & Hb).
  rewrite (callable_truthy _ _ _ Hc), (call_hook_eq s h' fid) in Hb by done.
  exists v, (log_call (window_get register_key s) [v] (with_heap h' s)). unfold exec_script. rewrite Hp, Hb.
  split_and!; [reflexivity | reflexivity | reflexivity |]. simpl. by rewrite Hrd, lit_norm_id.
Qed.
End Exec.

(** ** Witnesses *)

(** A script of the same shape whose table is [[1]], on the fresh page,
    with the shell's hook behaviour of [Page] replaced by a host that does
    nothing. *)
#[local] Instance idle_host : HostFunctions := { host_call _ _ s := Normal s }.

Definition small_script : list ascii :=
  program_prefix ++ list_ascii_of_string "[1]"%string ++ program_suffix.

Lemma exec_script_stores_witness :
  ∃ s', exec_script small_script init_page = Some (Normal s') ∧
    read_lit (lit_depth (LArr [LNum 1])) (st_heap s') (window_get pending_key s') = Some (LArr [LNum 1]).
Proof.
  destruct (exec_script_stores small_script (LArr [LNum 1]) init_page)
    as (s' & E & Hr & _); [reflexivity | reflexivity | apply init_page_ok | reflexivity |].
  by exists s'.
Defined.

Lemma exec_script_invokes_witness :
  ∃ v s1, exec_script small_script hooked_page = Some (host_call 0 [v] s1) ∧
    read_lit (lit_depth (LArr [LNum 1])) (st_heap s1) v = Some (LArr [LNum 1]).
Proof.
  destruct (exec_script_invokes small_script (LArr [LNum 1]) hooked_page 0)
    as (v & s1 & E & _ & _ & Hr); [reflexivity | reflexivity | apply hooked_page_ok | reflexivity |].
  by exists v, s1.
Defined.
