(* ===== verification/Page.v ===== *)
(** * The page: the fragment and the rustdoc shell in either order

    The shell (rustdoc's [main.js]) is not in the repository.  It is
    modelled from the spec (§3, §5, §6): it defines the hook
    [window.register_implementors], a function that renders the table it
    is given, and when it initialises it takes the table left in
    [window.pending_implementors], renders it and clears the slot.
    [shell_host] is the [HostFunctions] instance of the page.  Function
    [shell_fid] renders its first argument, and every other host function
    does nothing.

    A page is a sequence of events, each one script run to completion:
    the fragment ([EvFragment]) or the shell's initialisation
    ([EvShellInit]).  [page_step] is the step relation, [run] its
    executable form.

    Theorems: whichever of the two runs first, the table is rendered
    exactly once and the pending slot ends empty; every state reachable
    from a fresh page satisfies the page invariant (the heap closed, every
    rendered table and a pending table read back as the literal, and once
    the hook is installed nothing is left pending). *)

From Stdlib Require Import String ZArith.
From stdpp Require Import base list option gmap strings.
From S2P Require Import Prelude JsValue Literal ImplementorTable UnpinTable Loader.

Local Open Scope string_scope.

(** ** The shell *)

Definition shell_fid : nat := 0.

(** Render a table into the page. *)
Definition render (t : val) (s : state) : state :=
  mk_state (st_heap s) (st_window s) (st_calls s) (st_dom s ++ [t])%list.

Lemma window_get_render (k : string) (t : val) (s : state) :
  window_get k (render t s) = window_get k s.
Proof. reflexivity. Qed.

#[export] Instance shell_host : HostFunctions := {
  host_call fid args s :=
    if Nat.eqb fid shell_fid then Normal (render (default VUndefined (head args)) s)
    else Normal s
}.

(** The shell's initialisation: define the hook, then take a pending
    table, render it and clear the slot. *)
Definition shell_init (s : state) : outcome :=
  let '(l, h) := alloc (CFun shell_fid) (st_heap s) in
  let s1 := window_set register_key (VRef l) (with_heap h s) in
  let p := window_get pending_key s1 in
  if truthy p then
    match call (VRef l) [p] s1 with
    | Normal s2 => Normal (window_set pending_key VUndefined s2)
    | o => o
    end
  else Normal s1.

(** ** Pages *)

Inductive event := EvFragment | EvShellInit.

Definition page_event (e : event) (s : state) : outcome :=
  match e with EvFragment => unpin_fragment s | EvShellInit => shell_init s end.

(** A step: one script runs to normal completion. *)
Inductive page_step : state → state → Prop :=
  | step_event e s s' : page_event e s = Normal s' → page_step s s'.

Inductive reachable (s0 : state) : state → Prop :=
  | reach_refl : reachable s0 s0
  | reach_step s s' : reachable s0 s → page_step s s' → reachable s0 s'.

(** The events in order; an uncaught exception ends the page. *)
Fixpoint run (evs : list event) (s : state) : outcome :=
  match evs with
  | [] => Normal s
  | e :: evs' => match page_event e s with Normal s' => run evs' s' | o => o end
  end.

(** A fresh page: empty heap, no hook, nothing pending. *)
(** ** The shell's behaviour *)

Lemma render_ok (t : val) (s : state) :
  state_ok s → val_below (next (st_heap s)) t → state_ok (render t s).
Proof.
  intros (Hh & Hw & Hc & Hd) Ht. split_and!; simpl; [done..|].
  apply Forall_app. split; [done | by constructor].
Qed.

Lemma key_ne : pending_key ≠ register_key.
Proof. unfold pending_key, register_key. discriminate. Qed.

(** The shell's initialisation on a well-formed page: the hook is a fresh
    function object; a pending table is rendered and the slot cleared;
    with nothing pending, nothing is rendered. *)
Lemma shell_init_spec (s : state) :
  state_ok s →
  ∃ s', shell_init s = Normal s' ∧ state_ok s' ∧
    window_get register_key s' = VRef (next (st_heap s)) ∧
    callable (st_heap s') (VRef (next (st_heap s))) = Some shell_fid ∧
    extends (st_heap s) (st_heap s') ∧
    (∀ k, k ≠ pending_key → k ≠ register_key → window_get k s' = window_get k s) ∧
    if truthy (window_get pending_key s)
    then st_dom s' = (st_dom s ++ [window_get pending_key s])%list ∧
         window_get pending_key s' = VUndefined
    else st_dom s' = st_dom s ∧ window_get pending_key s' = window_get pending_key s.
Proof.
  intros Hok. unfold shell_init. destruct (alloc (CFun shell_fid) (st_heap s)) as [l h] eqn:Ea.
  destruct (alloc_eq _ _ _ _ Ea) as (-> & Hn & Hl & Ho).
  assert (Hext : extends (st_heap s) h).
  { split; [lia|]. intros l' Hl'. apply Ho. lia. }
  assert (Hok1 : state_ok (window_set register_key (VRef (next (st_heap s))) (with_heap h s))).
  { apply state_ok_window_set; [apply state_ok_with_heap; [done | | lia] | simpl; lia].
    apply (alloc_ok (CFun shell_fid) (st_heap s) (next (st_heap s)) h (proj1 Hok)); [constructor | done]. }
  rewrite (window_get_set_ne register_key pending_key) by apply key_ne.
  change (window_get pending_key (with_heap h s)) with (window_get pending_key s).
  assert (Hc : callable h (VRef (next (st_heap s))) = Some shell_fid) by (simpl; by rewrite Hl).
  destruct (truthy (window_get pending_key s)) eqn:Hp.
  - unfold call. change (st_heap _) with h at 1. rewrite Hc. simpl.
    eexists. split; [reflexivity|]. split_and!.
    + apply state_ok_window_set; [|done]. apply render_ok.
      * apply state_ok_log_call; [done | simpl; lia |]. constructor; [|done].
        eapply val_below_mono; [|by apply window_get_below]. simpl. lia.
      * eapply val_below_mono; [|by apply window_get_below]. simpl. lia.
    + rewrite window_get_set_ne by (intros ?%symmetry%key_ne; done).
      by rewrite window_get_render, window_get_log_call, window_get_set_eq.
    + exact Hc.
    + exact Hext.
    + intros k Hk1 Hk2. rewrite window_get_set_ne, window_get_render, window_get_log_call,
        window_get_set_ne by done. reflexivity.
    + reflexivity.
    + by rewrite window_get_set_eq.
  - eexists. split; [reflexivity|]. split_and!; [done | by rewrite window_get_set_eq | exact Hc
      | exact Hext | | | ].
    + intros k Hk1 Hk2. rewrite window_get_set_ne by done. reflexivity.
    + reflexivity.
    + rewrite window_get_set_ne by apply key_ne. reflexivity.
Qed.

(** ** The page invariant *)

(** Every value of the list reads back as the table. *)
Definition all_tables (h : heap) (vs : list val) : Prop :=
  Forall (λ v, read_lit 4 h v = Some implementors_lit) vs.

Definition page_inv (s : state) : Prop :=
  state_ok s ∧ all_tables (st_heap s) (st_dom s) ∧
  (truthy (window_get pending_key s) = true →
     read_lit 4 (st_heap s) (window_get pending_key s) = Some implementors_lit) ∧
  (window_get register_key s = VUndefined ∨
   callable (st_heap s) (window_get register_key s) = Some shell_fid ∧
   truthy (window_get pending_key s) = false).

Lemma all_tables_extends (s : state) (h' : heap) :
  state_ok s → extends (st_heap s) h' → all_tables (st_heap s) (st_dom s) → all_tables h' (st_dom s).
Proof.
  intros (Hh & _ & _ & Hd) Hext Hall. unfold all_tables in *. rewrite Forall_forall in *.
  intros v Hv. rewrite (read_lit_extends 4 (st_heap s) h'); [by apply Hall | done | done |].
  by apply Hd.
Qed.

Lemma pending_extends (s : state) (h' : heap) :
  state_ok s → extends (st_heap s) h' →
  read_lit 4 (st_heap s) (window_get pending_key s) = Some implementors_lit →
  read_lit 4 h' (window_get pending_key s) = Some implementors_lit.
Proof.
  intros Hok Hext Hr. rewrite (read_lit_extends 4 (st_heap s) h'); [done | apply Hok | done |].
  by apply window_get_below.
Qed.

Lemma init_page_inv : page_inv init_page.
Proof. split_and!; [apply init_page_ok | constructor | discriminate | by left]. Qed.

(** The page invariant after a run of the fragment in each of its two
    normal branches. *)
Lemma store_inv (s : state) (h' : heap) :
  page_inv s → window_get register_key s = VUndefined →
  extends (st_heap s) h' → (next (st_heap s) < next h')%positive → heap_ok h' →
  read_lit 4 h' (VRef (next (st_heap s))) = Some implementors_lit →
  page_inv (window_set pending_key (VRef (next (st_heap s))) (with_heap h' s)).
Proof.
  intros (Hok & Hall & _) Hreg Hext Hlt Hok' Hrd. unfold page_inv. rewrite window_get_set_eq.
  split_and!; [by apply store_state_ok | exact (all_tables_extends s h' Hok Hext Hall)
    | by intros _ | left].
  rewrite window_get_set_ne; [exact Hreg | by intros ?%symmetry%key_ne].
Qed.

Lemma invoke_inv (s : state) (h' : heap) :
  page_inv s → callable (st_heap s) (window_get register_key s) = Some shell_fid →
  truthy (window_get pending_key s) = false →
  extends (st_heap s) h' → (next (st_heap s) < next h')%positive → heap_ok h' →
  read_lit 4 h' (VRef (next (st_heap s))) = Some implementors_lit →
  page_inv (render (VRef (next (st_heap s)))
    (log_call (window_get register_key s) [VRef (next (st_heap s))] (with_heap h' s))).
Proof.
  intros (Hok & Hall & _) Hc Hpf Hext Hlt Hok' Hrd.
  unfold page_inv. rewrite !window_get_render, !window_get_log_call, !window_get_with_heap, Hpf.
  split_and!; [apply render_ok; [by apply invoke_state_ok | simpl; lia] | | discriminate | right].
  - unfold all_tables. simpl. apply Forall_app. split; [exact (all_tables_extends s h' Hok Hext Hall)|].
    by constructor.
  - split; [|done]. simpl.
    rewrite (callable_extends (st_heap s)); [done | done | by apply window_get_below].
Qed.

Lemma fragment_inv (s s' : state) : page_inv s → unpin_fragment s = Normal s' → page_inv s'.
Proof.
  intros Hinv E. pose proof Hinv as (Hok & _ & _ & [Hreg | [Hc Hpf]]).
  - assert (Hf : truthy (window_get register_key s) = false) by (by rewrite Hreg).
    destruct (fragment_store_eq s Hok Hf) as (h' & Hext & Hlt & Hok' & Hrd & E1).
    rewrite E1 in E. injection E as <-. by apply store_inv.
  - destruct (fragment_invoke_eq s shell_fid Hok Hc) as (h' & Hext & Hlt & Hok' & Hrd & E1).
    rewrite E1 in E. simpl in E. injection E as <-. by apply invoke_inv.
Qed.

Lemma shell_inv (s s' : state) : page_inv s → shell_init s = Normal s' → page_inv s'.
Proof.
  intros (Hok & Hall & Hpend & _) E.
  destruct (shell_init_spec s Hok) as (s1 & E1 & Hok1 & Hreg & Hc & Hext & _ & Hcase).
  rewrite E1 in E. injection E as <-.
  destruct (truthy (window_get pending_key s)) eqn:Hp; destruct Hcase as [Hd Hpe].
  - split_and!; [done | | by rewrite Hpe | right; by rewrite Hreg, Hpe].
    unfold all_tables. rewrite Hd. apply Forall_app. split; [by apply all_tables_extends|].
    constructor; [|done]. by apply pending_extends, Hpend.
  - split_and!; [done | rewrite Hd; by apply all_tables_extends | by rewrite Hpe, Hp
      | right; by rewrite Hreg, Hpe].
Qed.

(** C6. Every state a fresh page reaches, in any order and number of
    fragment runs and shell initialisations, satisfies [page_inv]: the
    state is well formed, every rendered table and a pending table read
    back as the literal, and once the hook is installed nothing is left
    pending. *)
Theorem page_reachable_inv (s : state) : reachable init_page s → page_inv s.
Proof.
  induction 1 as [|s s' _ IH Hstep]; [apply init_page_inv|].
  destruct Hstep as [[] s0 s1 E]; simpl in E; [by eapply fragment_inv | by eapply shell_inv].
Qed.

Lemma page_reachable_inv_witness : page_inv init_page.
Proof. apply (page_reachable_inv init_page). apply reach_refl. Defined.

(** ** Either order *)

Lemma run_two (e1 e2 : event) (s : state) :
  run [e1; e2] s = match page_event e1 s with Normal s1 => run [e2] s1 | o => o end.
Proof. reflexivity. Qed.

(** C5. On a page with no hook, nothing pending and nothing rendered, the
    fragment and the shell's initialisation, in either order, complete
    normally and leave exactly one rendered table, which reads back as
    the literal, and nothing pending. *)
Theorem page_either_order (s : state) (evs : list event) :
  page_inv s → st_dom s = [] → window_get register_key s = VUndefined →
  window_get pending_key s = VUndefined →
  evs = [EvFragment; EvShellInit] ∨ evs = [EvShellInit; EvFragment] →
  ∃ s', run evs s = Normal s' ∧ length (st_dom s') = 1 ∧
    all_tables (st_heap s') (st_dom s') ∧ truthy (window_get pending_key s') = false.
Proof.
  intros Hinv Hd Hreg Hpend [-> | ->]; rewrite run_two; simpl page_event.
  - assert (Hf : truthy (window_get register_key s) = false) by (by rewrite Hreg).
    destruct (fragment_store_eq s (proj1 Hinv) Hf) as (h' & Hext & Hlt & Hok' & Hrd & E1).
    rewrite E1. simpl.
    pose proof (store_inv s h' Hinv Hreg Hext Hlt Hok' Hrd) as Hinv1.
    destruct (shell_init_spec _ (proj1 Hinv1)) as (s2 & E2 & _ & _ & _ & _ & _ & Hcase).
    rewrite E2. rewrite window_get_set_eq in Hcase. simpl in Hcase. destruct Hcase as [Hd2 Hpe2].
    exists s2. split; [reflexivity|].
    pose proof (shell_inv _ _ Hinv1 E2) as Hinv2.
    split_and!; [by rewrite Hd2; simpl; rewrite Hd | apply Hinv2 | by rewrite Hpe2].
  - destruct (shell_init_spec s (proj1 Hinv)) as (s1 & E1 & Hok1 & Hreg1 & Hc1 & _ & _ & Hcase).
    rewrite E1. simpl. rewrite Hpend in Hcase. simpl in Hcase. destruct Hcase as [Hd1 Hpe1].
    rewrite <-Hreg1 in Hc1. pose proof (shell_inv _ _ Hinv E1) as Hinv1.
    destruct (fragment_invoke_eq s1 shell_fid Hok1 Hc1) as (h' & Hext & Hlt & Hok' & Hrd & E2).
    rewrite E2. simpl. eexists. split; [reflexivity|].
    pose proof (invoke_inv s1 h' Hinv1 Hc1 ltac:(by rewrite Hpe1) Hext Hlt Hok' Hrd) as Hinv2.
    split_and!; [simpl; by rewrite Hd1, Hd | apply Hinv2 |].
    rewrite window_get_render, window_get_log_call, window_get_with_heap. by rewrite Hpe1.
Qed.

Lemma page_either_order_witness :
  ∃ s', run [EvShellInit; EvFragment] init_page = Normal s' ∧ length (st_dom s') = 1 ∧
    all_tables (st_heap s') (st_dom s') ∧ truthy (window_get pending_key s') = false.
Proof.
  apply (page_either_order init_page); [apply init_page_inv | reflexivity | reflexivity
    | reflexivity | by right].
Defined.
